(** * BlackRoad Spatial Computing: zones, entities and proximity queries

    A shallow embedding of [src/spatial_computing.py].

    - Python [float] is IEEE 754 binary64.  It is modelled by the Standard
      Library's [spec_float] at precision 53 and maximal exponent 1024, with
      the library's round-to-nearest-even operations for [+], [-] and
      [math.sqrt].  A power goes through [pow] of the C library, which is a
      parameter of the model ([Float.Libm]); the worked cases run on
      [rounded_libm], whose [pow] is correctly rounded.
    - Python exceptions are values of [exn]; a computation that may raise
      returns a [result].
    - The SQLite database is a record of the two tables of [_init_db], each a
      list of rows in rowid order, together with the two AUTOINCREMENT
      counters.  Statements that write return the new database next to their
      result, so that a rollback is visible as an unchanged database.
      Binding a [str] that has no UTF-8 encoding raises, a NaN is bound as
      NULL, and a REAL column gives [-0.0] back as [0.0].
    - [datetime.now().isoformat()] is an argument [now] of the operations
      that read the clock, and [json.dumps] is a parameter of [add_entity];
      [Json] gives it for dictionaries of plain values. *)

From Stdlib Require Import ZArith List String Bool Lia.
From Stdlib Require Import Floats.SpecFloat.
From Stdlib Require Import Sorting.Sorted Sorting.Permutation.
Import ListNotations.

Local Open Scope Z_scope.
Local Open Scope string_scope.
Local Open Scope list_scope.

(** ** Exceptions and results *)

(** The constraint an INSERT can violate under the schema of [_init_db]. *)
Inductive constraint : Type :=
| NotNull (column : string)
| Unique (column : string).

Inductive exn : Type :=
| OverflowError                    (* float ** int out of range *)
| ValueError                       (* math domain error *)
| TypeError                        (* json.dumps on a value it cannot encode *)
| UnicodeEncodeError               (* a str that has no UTF-8 encoding *)
| IntegrityError (c : constraint). (* sqlite3.IntegrityError *)

Inductive result (A : Type) : Type :=
| Ok (a : A)
| Raise (e : exn).

Arguments Ok {A} a.
Arguments Raise {A} e.

Definition bind {A B : Type} (m : result A) (k : A -> result B) : result B :=
  match m with
  | Ok a => k a
  | Raise e => Raise e
  end.

Notation "x <- m ;; k" := (bind m (fun x => k))
  (at level 61, m at next level, right associativity).

(** ** Python floats *)

(** A float with its sign bit clear, or NaN. *)
Definition sign_clear (v : spec_float) : Prop :=
  match v with
  | S754_zero s | S754_infinity s | S754_finite s _ _ => s = false
  | S754_nan => True
  end.

Module Float.

Definition prec : Z := 53.
Definition emax : Z := 1024.

Definition float : Type := spec_float.

Definition nan : float := S754_nan.
Definition inf : float := S754_infinity false.
Definition zero : float := S754_zero false.
Definition one : float := S754_finite false 4503599627370496 (-52).

(** The float nearest to an integer ([float(n)], or the literal [n.0]). *)
Definition of_Z (n : Z) : float := binary_normalize prec emax n 0 false.

Definition is_nan (x : float) : bool :=
  match x with
  | S754_nan => true
  | _ => false
  end.

Definition is_finite (x : float) : bool :=
  match x with
  | S754_zero _ | S754_finite _ _ _ => true
  | _ => false
  end.

Definition add : float -> float -> float := SFadd prec emax.
Definition sub : float -> float -> float := SFsub prec emax.
Definition mul : float -> float -> float := SFmul prec emax.
Definition leb : float -> float -> bool := SFleb.
Definition ltb : float -> float -> bool := SFltb.
Definition eqb : float -> float -> bool := SFeqb.

Definition is_inf (x : float) : bool :=
  match x with
  | S754_infinity _ => true
  | _ => false
  end.

(** The C library.  CPython computes a power with [pow] of libm, which
    need not round correctly: [c_pow2 x] is what [pow(x, 2.0)] returns.  It
    is not negative, it is NaN for NaN only, and on a finite [x] it is
    infinite exactly when the rounded product [x * x] is. *)
Class Libm : Type := {
  c_pow2 : float -> float;
  c_pow2_sign : forall x, sign_clear (c_pow2 x);
  c_pow2_not_nan : forall x, is_nan x = false -> is_nan (c_pow2 x) = false;
  c_pow2_overflow :
    forall x, is_finite x = true -> is_inf (c_pow2 x) = is_inf (mul x x)
}.

(** [v ** 2].  CPython's [float_pow] returns NaN for a NaN base, [+inf]
    for an infinite base, [0.0] for a zero base and [1.0] for the bases
    [1.0] and [-1.0]; otherwise it calls [pow(|v|, 2.0)] and raises
    [OverflowError] when the result is infinite. *)
Definition pow2 {L : Libm} (v : float) : result float :=
  match v with
  | S754_nan => Ok nan
  | S754_infinity _ => Ok inf
  | S754_zero _ => Ok zero
  | S754_finite _ _ _ =>
      if eqb (SFabs v) one then Ok one
      else
        let r := c_pow2 (SFabs v) in
        match r with
        | S754_infinity _ => Raise OverflowError
        | _ => Ok r
        end
  end.

(** [math.sqrt]: a domain error on a negative argument, the correctly
    rounded root otherwise ([sqrt(-0.0)] is [-0.0]). *)
Definition sqrt (x : float) : result float :=
  match x with
  | S754_finite true _ _ | S754_infinity true => Raise ValueError
  | _ => Ok (SFsqrt prec emax x)
  end.

End Float.

Abbreviation float := Float.float.

(** ** A libm whose pow is correctly rounded

    [rounded_libm] returns the rounded product for [pow(x, 2.0)].  The
    worked cases are computed with it. *)

Lemma binary_round_aux_sign_clear (m e : Z) (l : location) :
  sign_clear (binary_round_aux Float.prec Float.emax false m e l).
Proof.
  unfold binary_round_aux.
  destruct (shr_fexp _ _ m e l) as [mrs' e'].
  destruct (shr_fexp _ _ _ e' loc_Exact) as [mrs'' e''].
  destruct (shr_m mrs''); cbn; auto.
  destruct (Z.leb _ _); reflexivity.
Qed.

Lemma iter_pos_invariant {A : Type} (P : A -> Prop) (g : A -> A) :
  (forall a, P a -> P (g a)) ->
  forall n a, P a -> P (iter_pos g n a).
Proof.
  intros Hg. induction n as [n IH|n IH|]; intros a Ha; cbn; auto.
Qed.

Lemma shr_1_nonneg (mrs : shr_record) : 0 <= shr_m mrs -> 0 <= shr_m (shr_1 mrs).
Proof.
  destruct mrs as [m r s]. cbn.
  destruct m as [|[p|p|]|[p|p|]]; cbn; lia.
Qed.

Lemma shr_fexp_nonneg (m e : Z) (l : location) :
  0 <= m -> 0 <= shr_m (fst (shr_fexp Float.prec Float.emax m e l)).
Proof.
  intros Hm. unfold shr_fexp, shr.
  assert (H0 : 0 <= shr_m (shr_record_of_loc m l))
    by (destruct l as [|[]]; exact Hm).
  destruct (_ - e); cbn [fst]; try exact H0.
  apply iter_pos_invariant; [exact shr_1_nonneg | exact H0].
Qed.

Lemma round_nearest_even_nonneg (m : Z) (l : location) :
  0 <= m -> 0 <= round_nearest_even m l.
Proof.
  intros Hm. destruct l as [|[]]; cbn; try lia.
  destruct (Z.even m); lia.
Qed.

Lemma binary_round_aux_not_nan (s : bool) (m e : Z) (l : location) :
  0 <= m ->
  Float.is_nan (binary_round_aux Float.prec Float.emax s m e l) = false.
Proof.
  intros Hm. unfold binary_round_aux.
  pose proof (shr_fexp_nonneg m e l Hm) as H1.
  destruct (shr_fexp _ _ m e l) as [mrs' e']. cbn [fst] in H1.
  pose proof (shr_fexp_nonneg _ e' loc_Exact
                (round_nearest_even_nonneg _ (loc_of_shr_record mrs') H1)) as H2.
  destruct (shr_fexp _ _ _ e' loc_Exact) as [mrs'' e'']. cbn [fst] in H2.
  destruct (shr_m mrs''); try reflexivity; [|lia].
  destruct (Z.leb _ _); reflexivity.
Qed.

Lemma mul_self_sign_clear (x : float) : sign_clear (Float.mul x x).
Proof.
  destruct x as [s|s| |s m e]; cbn; try apply xorb_nilpotent; auto.
  rewrite xorb_nilpotent. apply binary_round_aux_sign_clear.
Qed.

Lemma mul_self_not_nan (x : float) :
  Float.is_nan x = false -> Float.is_nan (Float.mul x x) = false.
Proof.
  destruct x as [s|s| |s m e]; try discriminate; intros _; try reflexivity.
  apply binary_round_aux_not_nan. lia.
Qed.

Definition rounded_libm : Float.Libm :=
  {| Float.c_pow2 := fun x => Float.mul x x;
     Float.c_pow2_sign := mul_self_sign_clear;
     Float.c_pow2_not_nan := mul_self_not_nan;
     Float.c_pow2_overflow := fun x _ => eq_refl |}.

(** ** Point3D *)

Record Point3D : Type := mkPoint3D {
  px : float;
  py : float;
  pz : float
}.

(** [Point3D.distance_to]:
    [math.sqrt((self.x - other.x) ** 2 + (self.y - other.y) ** 2
               + (self.z - other.z) ** 2)]. *)
Definition distance_to {L : Float.Libm} (self other : Point3D) : result float :=
  sx <- Float.pow2 (Float.sub (px self) (px other)) ;;
  sy <- Float.pow2 (Float.sub (py self) (py other)) ;;
  sz <- Float.pow2 (Float.sub (pz self) (pz other)) ;;
  Float.sqrt (Float.add (Float.add sx sy) sz).

(** ** Domain records *)

Module Zone.

Record t : Type := mk {
  id : Z;
  name : string;
  center_x : float;
  center_y : float;
  center_z : float;
  radius : float;
  zone_type : string;
  created_at : string;
  active : Z
}.

(** The [center] property. *)
Definition center (self : t) : Point3D :=
  mkPoint3D (center_x self) (center_y self) (center_z self).

End Zone.

Module SpatialEntity.

Record t : Type := mk {
  id : Z;
  name : string;
  x : float;
  y : float;
  z : float;
  entity_type : string;
  metadata : string;
  last_updated : string
}.

(** The [position] property. *)
Definition position (self : t) : Point3D :=
  mkPoint3D (x self) (y self) (z self).

End SpatialEntity.

(** ** The database

    The tables [zones] and [entities] hold their rows in rowid order, which
    is the order in which [SELECT *] yields them.  [zones_seq] and
    [entities_seq] are the rows of [sqlite_sequence]: the largest rowid each
    AUTOINCREMENT table has ever held. *)

Record DB : Type := mkDB {
  zones : list Zone.t;
  entities : list SpatialEntity.t;
  zones_seq : Z;
  entities_seq : Z
}.

Definition empty_db : DB := mkDB [] [] 0 0.

Module Sqlite.

Definition max_rowid (ids : list Z) : Z := fold_right Z.max 0 ids.

(** The rowid an AUTOINCREMENT table gives its next row: one more than
    the largest rowid the table holds or has ever held. *)
Definition next_rowid (seq : Z) (ids : list Z) : Z :=
  Z.max seq (max_rowid ids) + 1.

(** A REAL NOT NULL column.  SQLite binds a NaN as NULL, which the
    NOT NULL constraint then rejects. *)
Definition not_null (column : string) (v : float) : result unit :=
  if Float.is_nan v then Raise (IntegrityError (NotNull column)) else Ok tt.

(** What a REAL column gives back for a float it was given: the float
    itself, but [0.0] for [-0.0], which SQLite writes as the integer 0. *)
Definition real (v : float) : float :=
  match v with
  | S754_zero true => S754_zero false
  | _ => v
  end.

(** Well-formed UTF-8, on the bytes of a string: the shortest encoding of
    a code point up to U+10FFFF that is not a surrogate. *)
Fixpoint utf8_bytes (l : list N) : bool :=
  let tail b := (128 <=? b)%N && (b <=? 191)%N in
  match l with
  | [] => true
  | b0 :: l1 =>
      if (b0 <=? 127)%N then utf8_bytes l1
      else
        match l1 with
        | [] => false
        | b1 :: l2 =>
            if (194 <=? b0)%N && (b0 <=? 223)%N
            then tail b1 && utf8_bytes l2
            else
              match l2 with
              | [] => false
              | b2 :: l3 =>
                  if (224 <=? b0)%N && (b0 <=? 239)%N
                  then
                    (if (b0 =? 224)%N then (160 <=? b1)%N && (b1 <=? 191)%N
                     else if (b0 =? 237)%N then (128 <=? b1)%N && (b1 <=? 159)%N
                     else tail b1)
                    && tail b2 && utf8_bytes l3
                  else
                    match l3 with
                    | [] => false
                    | b3 :: l4 =>
                        (240 <=? b0)%N && (b0 <=? 244)%N
                        && (if (b0 =? 240)%N
                            then (144 <=? b1)%N && (b1 <=? 191)%N
                            else if (b0 =? 244)%N
                            then (128 <=? b1)%N && (b1 <=? 143)%N
                            else tail b1)
                        && tail b2 && tail b3 && utf8_bytes l4
                    end
              end
        end
  end.

(** A Python [str] is held as the bytes the process received for it; a
    byte sequence that is not UTF-8 stands for a [str] with lone
    surrogates, which has no UTF-8 encoding. *)
Definition encodable (s : string) : bool :=
  utf8_bytes (map Ascii.N_of_ascii (list_ascii_of_string s)).

(** Binding a [str] to a [?]: [UnicodeEncodeError] when it has no UTF-8
    encoding. *)
Definition bind_text (s : string) : result unit :=
  if encodable s then Ok tt else Raise UnicodeEncodeError.

(** [SELECT * FROM zones WHERE name=?] followed by [fetchone()]. *)
Definition zone_by_name (db : DB) (zone_name : string)
  : result (option Zone.t) :=
  _ <- bind_text zone_name ;;
  Ok (find (fun r => String.eqb (Zone.name r) zone_name) (zones db)).

(** [SELECT * FROM entities WHERE name=?] followed by [fetchone()]: the
    matching row of least rowid. *)
Definition entity_by_name (db : DB) (entity_name : string)
  : result (option SpatialEntity.t) :=
  _ <- bind_text entity_name ;;
  Ok (find (fun r => String.eqb (SpatialEntity.name r) entity_name)
        (entities db)).

(** The row that stands for a [Zone] once it is stored. *)
Definition zone_row (r : Zone.t) : Zone.t :=
  Zone.mk (Zone.id r) (Zone.name r) (real (Zone.center_x r))
          (real (Zone.center_y r)) (real (Zone.center_z r))
          (real (Zone.radius r)) (Zone.zone_type r) (Zone.created_at r)
          (Zone.active r).

(** The row that stands for a [SpatialEntity] once it is stored. *)
Definition entity_row (r : SpatialEntity.t) : SpatialEntity.t :=
  SpatialEntity.mk (SpatialEntity.id r) (SpatialEntity.name r)
                   (real (SpatialEntity.x r)) (real (SpatialEntity.y r))
                   (real (SpatialEntity.z r)) (SpatialEntity.entity_type r)
                   (SpatialEntity.metadata r) (SpatialEntity.last_updated r).

(** [INSERT INTO zones (name,center_x,center_y,center_z,radius,zone_type,
    created_at) VALUES (?,?,?,?,?,?,?)]; the column [active] takes its
    default 1.  The parameters are bound first, in their order, and the
    constraints are checked when the statement runs.  [created_at] is the
    text of [isoformat()], which is ASCII and always binds.  Returns
    [lastrowid] and the database after the statement. *)
Definition insert_zone (db : DB) (name : string) (cx cy cz radius : float)
    (zone_type created_at : string) : result (Z * DB) :=
  _ <- bind_text name ;;
  _ <- bind_text zone_type ;;
  _ <- not_null "zones.center_x" cx ;;
  _ <- not_null "zones.center_y" cy ;;
  _ <- not_null "zones.center_z" cz ;;
  _ <- not_null "zones.radius" radius ;;
  if existsb (fun r => String.eqb (Zone.name r) name) (zones db)
  then Raise (IntegrityError (Unique "zones.name"))
  else
    let rowid := next_rowid (zones_seq db) (map Zone.id (zones db)) in
    let row := Zone.mk rowid name (real cx) (real cy) (real cz) (real radius)
                 zone_type created_at 1 in
    Ok (rowid, mkDB (zones db ++ [row]) (entities db) rowid (entities_seq db)).

(** [INSERT INTO entities (name,x,y,z,entity_type,metadata,last_updated)
    VALUES (?,?,?,?,?,?,?)].  [metadata] is the text of [json.dumps], which
    is ASCII, and [last_updated] the text of [isoformat()]; both always
    bind. *)
Definition insert_entity (db : DB) (name : string) (x y z : float)
    (entity_type metadata last_updated : string) : result (Z * DB) :=
  _ <- bind_text name ;;
  _ <- bind_text entity_type ;;
  _ <- not_null "entities.x" x ;;
  _ <- not_null "entities.y" y ;;
  _ <- not_null "entities.z" z ;;
  let rowid := next_rowid (entities_seq db) (map SpatialEntity.id (entities db)) in
  let row := SpatialEntity.mk rowid name (real x) (real y) (real z)
               entity_type metadata last_updated in
  Ok (rowid, mkDB (zones db) (entities db ++ [row]) (zones_seq db) rowid).

End Sqlite.

(** ** sorted(results, key=lambda t: t[1])

    Python's sort is stable and compares keys with [<] only.  It is modelled
    by the insertion sort that takes the items from left to right and puts
    each one behind every item already placed whose key it is not smaller
    than. *)

Section Sorted.

Context {A : Type}.
Variable key : A -> float.

Fixpoint insort (pivot : A) (run : list A) : list A :=
  match run with
  | [] => [pivot]
  | p :: run' =>
      if Float.ltb (key pivot) (key p)
      then pivot :: p :: run'
      else p :: insort pivot run'
  end.

Definition sorted (l : list A) : list A :=
  fold_left (fun run pivot => insort pivot run) l [].

End Sorted.

(** ** SpatialComputing *)

Definition hit : Type := SpatialEntity.t * float.

(** [add_zone].  [zone_type] is [None] when the caller leaves the default.
    The [with] block commits when the body returns and rolls back when it
    raises. *)
Definition add_zone (db : DB) (now : string) (name : string)
    (cx cy cz radius : float) (zone_type : option string)
  : result Zone.t * DB :=
  let zone_type := match zone_type with Some t => t | None => "generic" end in
  match Sqlite.insert_zone db name cx cy cz radius zone_type now with
  | Raise e => (Raise e, db)
  | Ok (lastrowid, db') =>
      (Ok (Zone.mk lastrowid name cx cy cz radius zone_type now 1), db')
  end.

Section AddEntity.

(** Python dictionaries and [json.dumps], which raises on a value it
    cannot encode. *)
Variable dict : Type.
Variable empty_dict : dict.
Variable truthy : dict -> bool.
Variable json_dumps : dict -> result string.

(** [metadata or {}]: [None] and the empty dictionary give a new empty
    dictionary.  [metadata] is [None] when the caller leaves the default. *)
Definition or_empty (metadata : option dict) : dict :=
  match metadata with
  | Some d => if truthy d then d else empty_dict
  | None => empty_dict
  end.

(** [add_entity].  [entity_type] is [None] when the caller leaves the
    default.  [json.dumps] runs before the connection is opened. *)
Definition add_entity (db : DB) (now : string) (name : string)
    (x y z : float) (entity_type : option string) (metadata : option dict)
  : result SpatialEntity.t * DB :=
  let entity_type :=
    match entity_type with Some t => t | None => "object" end in
  match json_dumps (or_empty metadata) with
  | Raise e => (Raise e, db)
  | Ok meta =>
      match Sqlite.insert_entity db name x y z entity_type meta now with
      | Raise e => (Raise e, db)
      | Ok (lastrowid, db') =>
          (Ok (SpatialEntity.mk lastrowid name x y z entity_type meta now), db')
      end
  end.

End AddEntity.

(** ** json.dumps on a metadata dictionary

    [add_entity] leaves the dictionary and [json.dumps] open.  [Json] gives
    them for the dictionaries whose keys are [str] and whose values are
    [None], [True], [False], a [str], or an object of a type [json.dumps]
    has no encoding for, such as a [set]. *)

Module Json.

Inductive value : Type :=
| JNone
| JBool (b : bool)
| JStr (s : string)
| JSet.

(** The items of the dictionary, in insertion order. *)
Definition dict : Type := list (string * value).

(** [bool(d)]. *)
Definition truthy (d : dict) : bool :=
  match d with
  | [] => false
  | _ :: _ => true
  end.

(** The code points of a [str] held as bytes: a well-formed UTF-8 sequence
    is the code point it encodes, and any other byte [b] is the lone
    surrogate U+DC00 + [b]. *)
Fixpoint code_points (l : list N) : list N :=
  let tail b := (128 <=? b)%N && (b <=? 191)%N in
  match l with
  | [] => []
  | b0 :: l1 =>
      let stray := (56320 + b0)%N :: code_points l1 in
      if (b0 <=? 127)%N then b0 :: code_points l1
      else
        match l1 with
        | [] => stray
        | b1 :: l2 =>
            if (194 <=? b0)%N && (b0 <=? 223)%N
            then
              if tail b1
              then ((b0 - 192) * 64 + (b1 - 128))%N :: code_points l2
              else stray
            else
              match l2 with
              | [] => stray
              | b2 :: l3 =>
                  if (224 <=? b0)%N && (b0 <=? 239)%N
                  then
                    if (if (b0 =? 224)%N then (160 <=? b1)%N && (b1 <=? 191)%N
                        else if (b0 =? 237)%N
                        then (128 <=? b1)%N && (b1 <=? 159)%N
                        else tail b1)
                       && tail b2
                    then ((b0 - 224) * 4096 + (b1 - 128) * 64 + (b2 - 128))%N
                         :: code_points l3
                    else stray
                  else
                    match l3 with
                    | [] => stray
                    | b3 :: l4 =>
                        if (240 <=? b0)%N && (b0 <=? 244)%N
                           && (if (b0 =? 240)%N
                               then (144 <=? b1)%N && (b1 <=? 191)%N
                               else if (b0 =? 244)%N
                               then (128 <=? b1)%N && (b1 <=? 143)%N
                               else tail b1)
                           && tail b2 && tail b3
                        then ((b0 - 240) * 262144 + (b1 - 128) * 4096
                              + (b2 - 128) * 64 + (b3 - 128))%N
                             :: code_points l4
                        else stray
                    end
              end
        end
  end.

Definition char (n : N) : string := String (Ascii.ascii_of_N n) EmptyString.

Definition hex_digit (n : N) : string :=
  char (if (n <? 10)%N then 48 + n else 87 + n)%N.

(** [format(n, '04x')] for [n] below 65536. *)
Definition hex4 (n : N) : string :=
  (hex_digit (n / 4096) ++ hex_digit (n / 256 mod 16)
   ++ hex_digit (n / 16 mod 16) ++ hex_digit (n mod 16))%string.

Definition backslash : string := char 92.

(** What [ensure_ascii] puts for one code point. *)
Definition escape (n : N) : string :=
  (if (n =? 34)%N then backslash ++ char 34
   else if (n =? 92)%N then backslash ++ backslash
   else if (n =? 8)%N then backslash ++ "b"
   else if (n =? 9)%N then backslash ++ "t"
   else if (n =? 10)%N then backslash ++ "n"
   else if (n =? 12)%N then backslash ++ "f"
   else if (n =? 13)%N then backslash ++ "r"
   else if (32 <=? n)%N && (n <=? 126)%N then char n
   else if (n <? 65536)%N then backslash ++ "u" ++ hex4 n
   else
     let m := (n - 65536)%N in
     backslash ++ "u" ++ hex4 (55296 + m / 1024)
     ++ backslash ++ "u" ++ hex4 (56320 + m mod 1024))%string.

(** A [str] as a JSON string. *)
Definition quote (s : string) : string :=
  (char 34
   ++ String.concat ""
        (map escape (code_points (map Ascii.N_of_ascii (list_ascii_of_string s))))
   ++ char 34)%string.

Definition encode (v : value) : result string :=
  match v with
  | JNone => Ok "null"
  | JBool true => Ok "true"
  | JBool false => Ok "false"
  | JStr s => Ok (quote s)
  | JSet => Raise TypeError
  end.

(** The items from the left, each as [key: value]. *)
Fixpoint encode_items (d : dict) : result (list string) :=
  match d with
  | [] => Ok []
  | (k, v) :: d' =>
      text <- encode v ;;
      rest <- encode_items d' ;;
      Ok ((quote k ++ ": " ++ text)%string :: rest)
  end.

(** [json.dumps(d)] with its default separators. *)
Definition dumps (d : dict) : result string :=
  items <- encode_items d ;;
  Ok ("{" ++ String.concat ", " items ++ "}")%string.

End Json.

(** [list_zones]: [SELECT * FROM zones], with [WHERE active=1] when
    [active_only]. *)
Definition list_zones (db : DB) (active_only : bool) : list Zone.t :=
  if active_only
  then filter (fun r => Z.eqb (Zone.active r) 1) (zones db)
  else zones db.

(** [list_entities]: [SELECT * FROM entities]. *)
Definition list_entities (db : DB) : list SpatialEntity.t := entities db.

(** The loop of [find_entities_in_zone], from the entities not yet visited
    and the list [results] built so far. *)
Fixpoint zone_scan {L : Float.Libm} (zone : Zone.t)
    (todo : list SpatialEntity.t) (results : list hit) : result (list hit) :=
  match todo with
  | [] => Ok results
  | entity :: todo' =>
      dist <- distance_to (SpatialEntity.position entity) (Zone.center zone) ;;
      if Float.leb dist (Zone.radius zone)
      then zone_scan zone todo' (results ++ [(entity, dist)])
      else zone_scan zone todo' results
  end.

Definition find_entities_in_zone {L : Float.Libm} (db : DB)
    (zone_name : string) : result (list hit) :=
  row <- Sqlite.zone_by_name db zone_name ;;
  match row with
  | None => Ok []
  | Some zone =>
      results <- zone_scan zone (list_entities db) [] ;;
      Ok (sorted snd results)
  end.

(** The loop of [proximity_check]. *)
Fixpoint proximity_scan {L : Float.Libm} (target : SpatialEntity.t)
    (threshold : float) (todo : list SpatialEntity.t) (results : list hit)
  : result (list hit) :=
  match todo with
  | [] => Ok results
  | entity :: todo' =>
      if Z.eqb (SpatialEntity.id entity) (SpatialEntity.id target)
      then proximity_scan target threshold todo' results
      else
        dist <- distance_to (SpatialEntity.position entity)
                            (SpatialEntity.position target) ;;
        if Float.leb dist threshold
        then proximity_scan target threshold todo' (results ++ [(entity, dist)])
        else proximity_scan target threshold todo' results
  end.

Definition proximity_check {L : Float.Libm} (db : DB) (entity_name : string)
    (threshold : float) : result (list hit) :=
  row <- Sqlite.entity_by_name db entity_name ;;
  match row with
  | None => Ok []
  | Some target =>
      results <- proximity_scan target threshold (list_entities db) [] ;;
      Ok (sorted snd results)
  end.

(** ** export_data *)

#[local] Set Warnings "-register-all".

(** The Python values an exported structure is made of. *)
Inductive pyval : Type :=
| PyInt (n : Z)
| PyFloat (v : float)
| PyStr (s : string)
| PyList (items : list pyval)
| PyDict (items : list (string * pyval)).

(** [dataclasses.asdict]: the fields in declaration order. *)
Definition asdict_zone (r : Zone.t) : pyval :=
  PyDict [("id", PyInt (Zone.id r));
          ("name", PyStr (Zone.name r));
          ("center_x", PyFloat (Zone.center_x r));
          ("center_y", PyFloat (Zone.center_y r));
          ("center_z", PyFloat (Zone.center_z r));
          ("radius", PyFloat (Zone.radius r));
          ("zone_type", PyStr (Zone.zone_type r));
          ("created_at", PyStr (Zone.created_at r));
          ("active", PyInt (Zone.active r))].

Definition asdict_entity (r : SpatialEntity.t) : pyval :=
  PyDict [("id", PyInt (SpatialEntity.id r));
          ("name", PyStr (SpatialEntity.name r));
          ("x", PyFloat (SpatialEntity.x r));
          ("y", PyFloat (SpatialEntity.y r));
          ("z", PyFloat (SpatialEntity.z r));
          ("entity_type", PyStr (SpatialEntity.entity_type r));
          ("metadata", PyStr (SpatialEntity.metadata r));
          ("last_updated", PyStr (SpatialEntity.last_updated r))].

Definition export_data (db : DB) (now : string) : pyval :=
  PyDict [("zones", PyList (map asdict_zone (list_zones db false)));
          ("entities", PyList (map asdict_entity (list_entities db)));
          ("exported_at", PyStr now)].

(** * Vocabulary of the properties *)

(** ** The order of float comparison

    [float_rank] sends the floats that are not NaN into triples of integers
    whose lexicographic order is the order [<], [<=] and [==] decide. *)

Definition float_rank (v : float) : Z * (Z * Z) :=
  match v with
  | S754_infinity true => (-2, (0, 0))
  | S754_finite true m e => (-1, (- e, - Zpos m))
  | S754_zero _ => (0, (0, 0))
  | S754_finite false m e => (1, (e, Zpos m))
  | S754_infinity false => (2, (0, 0))
  | S754_nan => (3, (0, 0))
  end.

Definition lex_lt (r1 r2 : Z * (Z * Z)) : Prop :=
  fst r1 < fst r2
  \/ (fst r1 = fst r2
      /\ (fst (snd r1) < fst (snd r2)
          \/ (fst (snd r1) = fst (snd r2) /\ snd (snd r1) < snd (snd r2)))).

Definition lex_eq (r1 r2 : Z * (Z * Z)) : Prop :=
  fst r1 = fst r2 /\ fst (snd r1) = fst (snd r2) /\ snd (snd r1) = snd (snd r2).

(** ** Sorted and stable *)

Section SortedVocabulary.

Context {A : Type}.
Variable key : A -> float.

Definition key_le (a b : A) : Prop := Float.leb (key a) (key b) = true.

Definition key_ok (a : A) : Prop := Float.is_nan (key a) = false.

(** The items whose key compares equal to [d]. *)
Definition tie (d : float) (a : A) : bool := Float.eqb (key a) d.

End SortedVocabulary.

(** Non-decreasing by the distance component: every entry is at most every
    later entry. *)
Definition sorted_by_distance (res : list hit) : Prop :=
  StronglySorted (key_le snd) res.

(** [x] stands somewhere before [y] in [l]. *)
Definition precedes {A : Type} (l : list A) (x y : A) : Prop :=
  exists l1 l2 l3, l = l1 ++ x :: l2 ++ y :: l3.

(** Two entries of [res] with equal distances stand in the order in which
    their entities stand in [es]. *)
Definition stable_in (es : list SpatialEntity.t) (res : list hit) : Prop :=
  forall h1 h2,
    precedes res h1 h2 -> Float.eqb (snd h1) (snd h2) = true ->
    precedes es (fst h1) (fst h2).

(** ** The two loops as one scan

    A probe tells for one entity whether the loop skips it ([Ok None]),
    appends it with a distance ([Ok (Some d)]), or raises. *)

Definition probe : Type := SpatialEntity.t -> result (option float).

Fixpoint scan (f : probe) (todo : list SpatialEntity.t) (results : list hit)
  : result (list hit) :=
  match todo with
  | [] => Ok results
  | entity :: todo' =>
      o <- f entity ;;
      match o with
      | Some dist => scan f todo' (results ++ [(entity, dist)])
      | None => scan f todo' results
      end
  end.

Definition hits_of (f : probe) (es : list SpatialEntity.t) : list hit :=
  flat_map (fun e => match f e with Ok (Some d) => [(e, d)] | _ => [] end) es.

Definition zone_probe {L : Float.Libm} (zone : Zone.t) : probe := fun entity =>
  dist <- distance_to (SpatialEntity.position entity) (Zone.center zone) ;;
  Ok (if Float.leb dist (Zone.radius zone) then Some dist else None).

Definition near_probe {L : Float.Libm} (target : SpatialEntity.t)
    (threshold : float) : probe :=
  fun entity =>
    if Z.eqb (SpatialEntity.id entity) (SpatialEntity.id target)
    then Ok None
    else
      dist <- distance_to (SpatialEntity.position entity)
                          (SpatialEntity.position target) ;;
      Ok (if Float.leb dist threshold then Some dist else None).

(** The entities a probe appends with a distance that compares equal to
    [d]. *)
Definition appended_at (f : probe) (d : float) (e : SpatialEntity.t) : bool :=
  match f e with
  | Ok (Some x) => Float.eqb x d
  | _ => false
  end.

(** ** The value of the distance

    [squared v] is what [v ** 2] evaluates to when it does not raise, and
    [euclidean_norm] what [distance_to] then returns.  [square v] is the
    rounded product [v * v], which tells when [v ** 2] raises. *)

Definition squared {L : Float.Libm} (v : float) : float :=
  match v with
  | S754_nan => Float.nan
  | S754_infinity _ => Float.inf
  | S754_zero _ => Float.zero
  | S754_finite _ _ _ =>
      if Float.eqb (SFabs v) Float.one then Float.one
      else Float.c_pow2 (SFabs v)
  end.

Definition square (v : float) : float := Float.mul v v.

Definition euclidean_norm {L : Float.Libm} (a b : Point3D) : float :=
  SFsqrt Float.prec Float.emax
    (Float.add
       (Float.add (squared (Float.sub (px a) (px b)))
                  (squared (Float.sub (py a) (py b))))
       (squared (Float.sub (pz a) (pz b)))).

(** A finite float whose square is out of range. *)
Definition square_overflows (v : float) : bool :=
  match v, square v with
  | S754_finite _ _ _, S754_infinity _ => true
  | _, _ => false
  end.

Definition distance_overflows (a b : Point3D) : bool :=
  square_overflows (Float.sub (px a) (px b))
  || square_overflows (Float.sub (py a) (py b))
  || square_overflows (Float.sub (pz a) (pz b)).

Definition finite_point (p : Point3D) : bool :=
  Float.is_finite (px p) && Float.is_finite (py p) && Float.is_finite (pz p).

(** ** Reading an exported structure back

    The inverse the round trip of the specification asks for: [Zone] and
    [SpatialEntity] built from the keywords of the dictionaries under the
    keys [zones] and [entities]. *)

Fixpoint lookup (k : string) (items : list (string * pyval)) : option pyval :=
  match items with
  | [] => None
  | (k', v) :: items' => if String.eqb k k' then Some v else lookup k items'
  end.

Definition get_int (k : string) (d : pyval) : option Z :=
  match d with
  | PyDict items => match lookup k items with Some (PyInt n) => Some n | _ => None end
  | _ => None
  end.

Definition get_float (k : string) (d : pyval) : option float :=
  match d with
  | PyDict items => match lookup k items with Some (PyFloat v) => Some v | _ => None end
  | _ => None
  end.

Definition get_str (k : string) (d : pyval) : option string :=
  match d with
  | PyDict items => match lookup k items with Some (PyStr s) => Some s | _ => None end
  | _ => None
  end.

Definition get_list (k : string) (d : pyval) : option (list pyval) :=
  match d with
  | PyDict items => match lookup k items with Some (PyList l) => Some l | _ => None end
  | _ => None
  end.

Definition obind {A B : Type} (m : option A) (k : A -> option B) : option B :=
  match m with
  | Some a => k a
  | None => None
  end.

Definition zone_of_dict (d : pyval) : option Zone.t :=
  obind (get_int "id" d) (fun id =>
  obind (get_str "name" d) (fun name =>
  obind (get_float "center_x" d) (fun cx =>
  obind (get_float "center_y" d) (fun cy =>
  obind (get_float "center_z" d) (fun cz =>
  obind (get_float "radius" d) (fun radius =>
  obind (get_str "zone_type" d) (fun zone_type =>
  obind (get_str "created_at" d) (fun created_at =>
  obind (get_int "active" d) (fun active =>
  Some (Zone.mk id name cx cy cz radius zone_type created_at active)))))))))).

Definition entity_of_dict (d : pyval) : option SpatialEntity.t :=
  obind (get_int "id" d) (fun id =>
  obind (get_str "name" d) (fun name =>
  obind (get_float "x" d) (fun x =>
  obind (get_float "y" d) (fun y =>
  obind (get_float "z" d) (fun z =>
  obind (get_str "entity_type" d) (fun entity_type =>
  obind (get_str "metadata" d) (fun metadata =>
  obind (get_str "last_updated" d) (fun last_updated =>
  Some (SpatialEntity.mk id name x y z entity_type metadata last_updated))))))))).

Fixpoint read_all {A : Type} (read : pyval -> option A) (l : list pyval)
  : option (list A) :=
  match l with
  | [] => Some []
  | d :: l' =>
      obind (read d) (fun a => obind (read_all read l') (fun r => Some (a :: r)))
  end.

Definition zones_of_export (exported : pyval) : option (list Zone.t) :=
  obind (get_list "zones" exported) (read_all zone_of_dict).

Definition entities_of_export (exported : pyval)
  : option (list SpatialEntity.t) :=
  obind (get_list "entities" exported) (read_all entity_of_dict).

(** ** Databases that differ in activity flags only *)

Definition set_active (a : Z) (r : Zone.t) : Zone.t :=
  Zone.mk (Zone.id r) (Zone.name r) (Zone.center_x r) (Zone.center_y r)
          (Zone.center_z r) (Zone.radius r) (Zone.zone_type r)
          (Zone.created_at r) a.

(** The database in which every zone row [r] has its flag set to [flag r]. *)
Definition with_active (flag : Zone.t -> Z) (db : DB) : DB :=
  mkDB (map (fun r => set_active (flag r) r) (zones db))
       (entities db) (zones_seq db) (entities_seq db).

(** ** Text that can be bound

    The strings [add_zone] and [add_entity] bind besides the timestamp and
    the JSON text. *)

Definition zone_texts_bind (name : string) (zone_type : option string) : bool :=
  Sqlite.encodable name
  && match zone_type with Some t => Sqlite.encodable t | None => true end.

Definition entity_texts_bind (name : string) (entity_type : option string)
  : bool :=
  Sqlite.encodable name
  && match entity_type with Some t => Sqlite.encodable t | None => true end.

(** ** Sample data

    The command line never passes [metadata], so that [json.dumps] only
    ever sees the empty dictionary; [cli_add_entity] is [add_entity] as the
    command line reaches it. *)

Definition cli_add_entity (db : DB) (now name : string) (x y z : float)
  : result SpatialEntity.t * DB :=
  add_entity unit tt (fun _ => false) (fun _ => Ok "{}")
    db now name x y z None None.

Definition flt (n : Z) : float := Float.of_Z n.

Definition t0 : string := "2024-01-01T00:00:00".

(** Zone [A] of radius 5 at the origin with [p1] at distance 3 and [p2] at
    distance 10. *)
Definition zone_A_db : DB :=
  let db := snd (add_zone empty_db t0 "A" (flt 0) (flt 0) (flt 0) (flt 5) None) in
  let db := snd (cli_add_entity db t0 "p1" (flt 3) (flt 0) (flt 0)) in
  snd (cli_add_entity db t0 "p2" (flt 10) (flt 0) (flt 0)).

Definition zone_A : Zone.t :=
  Zone.mk 1 "A" (flt 0) (flt 0) (flt 0) (flt 5) "generic" t0 1.

Definition p1 : SpatialEntity.t :=
  SpatialEntity.mk 1 "p1" (flt 3) (flt 0) (flt 0) "object" "{}" t0.

Definition p2 : SpatialEntity.t :=
  SpatialEntity.mk 2 "p2" (flt 10) (flt 0) (flt 0) "object" "{}" t0.

(** The same database after one more entity, [far], is registered at
    [x = 1e200]. *)
Definition far_db : DB :=
  snd (cli_add_entity zone_A_db t0 "far" (flt (10 ^ 200)) (flt 0) (flt 0)).

(** Zone [A] of radius 5 at the origin with the entities [a], [b] and [c]
    at [x = 0], [1] and [2], and [twin], a second entity at the coordinates
    of [a]. *)
Definition line_db : DB :=
  let db := snd (add_zone empty_db t0 "A" (flt 0) (flt 0) (flt 0) (flt 5) None) in
  let db := snd (cli_add_entity db t0 "a" (flt 0) (flt 0) (flt 0)) in
  let db := snd (cli_add_entity db t0 "b" (flt 1) (flt 0) (flt 0)) in
  let db := snd (cli_add_entity db t0 "c" (flt 2) (flt 0) (flt 0)) in
  snd (cli_add_entity db t0 "twin" (flt 0) (flt 0) (flt 0)).

Definition ent (id : Z) (name : string) (x : Z) : SpatialEntity.t :=
  SpatialEntity.mk id name (flt x) (flt 0) (flt 0) "object" "{}" t0.

(** [line_db] after one more call: a zone [pit] of radius [-1.0], a zone
    [core] of radius 1 at the centre of [A], a zone [B] elsewhere, and a
    second entity named [a]. *)
Definition pit_db : DB :=
  snd (add_zone line_db t0 "pit" (flt 0) (flt 0) (flt 0) (flt (-1)) None).

Definition pit : Zone.t :=
  Zone.mk 2 "pit" (flt 0) (flt 0) (flt 0) (flt (-1)) "generic" t0 1.

Definition core_db : DB :=
  snd (add_zone line_db t0 "core" (flt 0) (flt 0) (flt 0) (flt 1) None).

Definition zone_B : Zone.t :=
  Zone.mk 2 "B" (flt 9) (flt 9) (flt 9) (flt 1) "generic" t0 1.

Definition zone_B_db : DB :=
  snd (add_zone line_db t0 "B" (flt 9) (flt 9) (flt 9) (flt 1) None).

Definition second_a_db : DB :=
  snd (cli_add_entity line_db t0 "a" (flt 7) (flt 8) (flt 9)).

(** The name the command line yields for the argument bytes 63 E9: the
    letter [c] and a lone surrogate, a [str] with no UTF-8 encoding. *)
Definition stray_byte_name : string :=
  String (Ascii.ascii_of_nat 99) (String (Ascii.ascii_of_nat 233) EmptyString).

(** Two points with finite coordinates, [1e200] apart. *)
Definition far_point : Point3D := mkPoint3D (flt (10 ^ 200)) (flt 0) (flt 0).

Definition origin : Point3D := mkPoint3D (flt 0) (flt 0) (flt 0).

(** [1.5]. *)
Definition one_and_a_half : float :=
  binary_normalize Float.prec Float.emax 3 (-1) false.

(** ** status *)

(** The dictionary [status] returns, with its three keys. *)
Record Status : Type := mkStatus {
  active_zones : Z;
  total_entities : Z;
  db_path : string
}.

(** [status]; [path] is [self.db_path]. *)
Definition status (db : DB) (path : string) : Status :=
  mkStatus (Z.of_nat (List.length (list_zones db true)))
           (Z.of_nat (List.length (list_entities db)))
           path.

(** ** Vocabulary of the further properties *)

(** The entities within [bound] of a point, as the two loops test it. *)
Definition within {L : Float.Libm} (centre : Point3D) (bound : float)
    (e : SpatialEntity.t) : bool :=
  match distance_to (SpatialEntity.position e) centre with
  | Ok d => Float.leb d bound
  | Raise _ => false
  end.

(** The exception of the first entity on which a probe raises. *)
Fixpoint first_raise (f : probe) (todo : list SpatialEntity.t) : option exn :=
  match todo with
  | [] => None
  | e :: todo' =>
      match f e with
      | Raise x => Some x
      | Ok _ => first_raise f todo'
      end
  end.

(** The rowids [1], [2], ..., [n]. *)
Definition rowids (n : nat) : list Z := map Z.of_nat (seq 1 n).

(** A zone row as [add_zone] writes it: active, without NaN, with a name
    and a type that have a UTF-8 encoding, and with floats as a REAL column
    holds them. *)
Definition zone_row_ok (r : Zone.t) : Prop :=
  Zone.active r = 1
  /\ Float.is_nan (Zone.center_x r) = false
  /\ Float.is_nan (Zone.center_y r) = false
  /\ Float.is_nan (Zone.center_z r) = false
  /\ Float.is_nan (Zone.radius r) = false
  /\ Sqlite.encodable (Zone.name r) = true
  /\ Sqlite.encodable (Zone.zone_type r) = true
  /\ Sqlite.zone_row r = r.

Definition entity_row_ok (r : SpatialEntity.t) : Prop :=
  Float.is_nan (SpatialEntity.x r) = false
  /\ Float.is_nan (SpatialEntity.y r) = false
  /\ Float.is_nan (SpatialEntity.z r) = false
  /\ Sqlite.encodable (SpatialEntity.name r) = true
  /\ Sqlite.encodable (SpatialEntity.entity_type r) = true
  /\ Sqlite.entity_row r = r.

(** The databases the code builds from a new file: [_init_db] creates the
    empty tables, and [add_zone] and [add_entity] are the only operations
    that write, whether they succeed or raise. *)
Inductive reachable : DB -> Prop :=
| reach_init : reachable empty_db
| reach_add_zone (db : DB) (now name : string) (cx cy cz radius : float)
    (zone_type : option string) :
    reachable db ->
    reachable (snd (add_zone db now name cx cy cz radius zone_type))
| reach_add_entity (dict : Type) (empty_dict : dict) (truthy : dict -> bool)
    (json_dumps : dict -> result string)
    (db : DB) (now name : string) (x y z : float)
    (entity_type : option string) (metadata : option dict) :
    reachable db ->
    reachable (snd (add_entity dict empty_dict truthy json_dumps
                      db now name x y z entity_type metadata)).

(** What every reachable database satisfies. *)
Definition well_formed (db : DB) : Prop :=
  map Zone.id (zones db) = rowids (List.length (zones db))
  /\ zones_seq db = Z.of_nat (List.length (zones db))
  /\ map SpatialEntity.id (entities db) = rowids (List.length (entities db))
  /\ entities_seq db = Z.of_nat (List.length (entities db))
  /\ NoDup (map Zone.name (zones db))
  /\ Forall zone_row_ok (zones db)
  /\ Forall entity_row_ok (entities db).

(** * Properties *)

(** ** Float comparison is a total preorder away from NaN *)

Module FloatOrder.

Lemma compare_rank (a b : float) :
  Float.is_nan a = false -> Float.is_nan b = false ->
  exists c, SFcompare a b = Some c
    /\ match c with
       | Lt => lex_lt (float_rank a) (float_rank b)
       | Eq => lex_eq (float_rank a) (float_rank b)
       | Gt => lex_lt (float_rank b) (float_rank a)
       end.
Proof.
  intros Ha Hb.
  destruct a as [sa|sa| |sa ma ea]; try discriminate;
  destruct b as [sb|sb| |sb mb eb]; try discriminate;
  try destruct sa; try destruct sb; cbn -[Z.compare Pos.compare_cont Z.lt];
  try (eexists; split; [reflexivity|]; unfold lex_lt, lex_eq; cbn; lia).
  all: change (Pos.compare_cont Eq ma mb) with (Pos.compare ma mb).
  all: destruct (Z.compare_spec ea eb); destruct (Pos.compare_spec ma mb);
    eexists; (split; [reflexivity|]); unfold lex_lt, lex_eq; cbn; try lia.
Qed.

Lemma leb_not_nan (a b : float) :
  Float.leb a b = true -> Float.is_nan a = false /\ Float.is_nan b = false.
Proof.
  destruct a as [| | |[] ? ?], b as [| | |[] ? ?]; cbn; auto; discriminate.
Qed.

Lemma ltb_not_nan (a b : float) :
  Float.ltb a b = true -> Float.is_nan a = false /\ Float.is_nan b = false.
Proof.
  destruct a as [| | |[] ? ?], b as [| | |[] ? ?]; cbn; auto; discriminate.
Qed.

Lemma eqb_not_nan (a b : float) :
  Float.eqb a b = true -> Float.is_nan a = false /\ Float.is_nan b = false.
Proof.
  destruct a as [| | |[] ? ?], b as [| | |[] ? ?]; cbn; auto; discriminate.
Qed.

Ltac by_rank a b :=
  let c := fresh "c" in
  let Hc := fresh "Hc" in
  let Hr := fresh "Hr" in
  destruct (compare_rank a b) as (c & Hc & Hr); [assumption | assumption |];
  unfold Float.leb, Float.ltb, Float.eqb, SFleb, SFltb, SFeqb in *;
  rewrite ?Hc in *; destruct c.

Lemma ltb_false_leb (a b : float) :
  Float.is_nan a = false -> Float.is_nan b = false ->
  Float.ltb a b = false -> Float.leb b a = true.
Proof.
  intros Ha Hb H.
  by_rank a b; try discriminate; by_rank b a; try reflexivity;
    unfold lex_lt, lex_eq in *; lia.
Qed.

Lemma ltb_leb (a b : float) : Float.ltb a b = true -> Float.leb a b = true.
Proof.
  unfold Float.ltb, Float.leb, SFltb, SFleb.
  destruct (SFcompare a b) as [[]|]; auto.
Qed.

Lemma leb_trans (a b c : float) :
  Float.leb a b = true -> Float.leb b c = true -> Float.leb a c = true.
Proof.
  intros Hab Hbc.
  destruct (leb_not_nan _ _ Hab) as [Ha Hb].
  destruct (leb_not_nan _ _ Hbc) as [_ Hc].
  by_rank a b; try discriminate; by_rank b c; try discriminate;
    by_rank a c; try reflexivity; unfold lex_lt, lex_eq in *; lia.
Qed.

Lemma ltb_leb_trans (a b c : float) :
  Float.ltb a b = true -> Float.leb b c = true -> Float.ltb a c = true.
Proof.
  intros Hab Hbc.
  destruct (ltb_not_nan _ _ Hab) as [Ha Hb].
  destruct (leb_not_nan _ _ Hbc) as [_ Hc].
  by_rank a b; try discriminate; by_rank b c; try discriminate;
    by_rank a c; try reflexivity; unfold lex_lt, lex_eq in *; lia.
Qed.

Lemma eqb_refl (a : float) : Float.is_nan a = false -> Float.eqb a a = true.
Proof.
  intros Ha.
  by_rank a a; try reflexivity; unfold lex_lt, lex_eq in *; lia.
Qed.

(** A key above a key that ties with [d] does not tie with [d]. *)
Lemma ltb_breaks_tie (a b d : float) :
  Float.eqb a d = true -> Float.ltb a b = true -> Float.eqb b d = false.
Proof.
  intros Had Hab.
  destruct (eqb_not_nan _ _ Had) as [Ha Hd].
  destruct (ltb_not_nan _ _ Hab) as [_ Hb].
  by_rank a d; try discriminate; by_rank a b; try discriminate;
    by_rank b d; try reflexivity; unfold lex_lt, lex_eq in *; lia.
Qed.

End FloatOrder.

(** ** The sort *)

Section SortedFacts.

Context {A : Type}.
Variable key : A -> float.

Lemma insort_perm (pivot : A) (run : list A) :
  Permutation (insort key pivot run) (pivot :: run).
Proof.
  induction run as [|p run IH]; simpl; [reflexivity|].
  destruct (Float.ltb (key pivot) (key p)); [reflexivity|].
  rewrite IH. apply perm_swap.
Qed.

Lemma insort_sorted (pivot : A) (run : list A) :
  key_ok key pivot -> Forall (key_ok key) run ->
  StronglySorted (key_le key) run -> StronglySorted (key_le key) (insort key pivot run).
Proof.
  intros Hp Hok Hs.
  induction Hs as [|p run Hs IH Hall]; simpl.
  - repeat constructor.
  - inversion Hok as [|? ? Hokp Hokr]; subst.
    destruct (Float.ltb (key pivot) (key p)) eqn:Hlt.
    + constructor; [constructor; assumption|].
      constructor; [apply FloatOrder.ltb_leb; exact Hlt|].
      eapply Forall_impl; [|exact Hall].
      intros q Hq. unfold key_le in *.
      eapply FloatOrder.leb_trans; [apply FloatOrder.ltb_leb; exact Hlt | exact Hq].
    + constructor; [apply IH; assumption|].
      eapply Permutation_Forall; [symmetry; apply insort_perm|].
      constructor; [|exact Hall].
      apply FloatOrder.ltb_false_leb; assumption.
Qed.

Lemma insort_tie (d : float) (pivot : A) (run : list A) :
  StronglySorted (key_le key) run ->
  filter (tie key d) (insort key pivot run)
  = filter (tie key d) run ++ filter (tie key d) [pivot].
Proof.
  intros Hs.
  induction Hs as [|p run Hs IH Hall]; [reflexivity|].
  cbn [insort].
  destruct (Float.ltb (key pivot) (key p)) eqn:Hlt.
  - cbn [filter]. destruct (tie key d pivot) eqn:Hd; [|now rewrite app_nil_r].
    assert (Hnone : forall q, key_le key p q -> tie key d q = false).
    { intros q Hq. unfold tie in *.
      eapply FloatOrder.ltb_breaks_tie; [exact Hd|].
      eapply FloatOrder.ltb_leb_trans; [exact Hlt | exact Hq]. }
    assert (Hp : tie key d p = false).
    { unfold tie in *. eapply FloatOrder.ltb_breaks_tie; eassumption. }
    rewrite Hp.
    replace (filter (tie key d) run) with (@nil A); [reflexivity|].
    symmetry. clear IH Hs.
    induction Hall as [|q run Hq Hall IHr]; [reflexivity|].
    cbn [filter]. rewrite (Hnone q Hq). exact IHr.
  - cbn [filter]. rewrite IH. destruct (tie key d p); reflexivity.
Qed.

Lemma sorted_from (l run : list A) :
  Forall (key_ok key) l -> Forall (key_ok key) run -> StronglySorted (key_le key) run ->
  let out := fold_left (fun run pivot => insort key pivot run) l run in
  StronglySorted (key_le key) out
  /\ Permutation out (run ++ l)
  /\ forall d, filter (tie key d) out = filter (tie key d) run ++ filter (tie key d) l.
Proof.
  revert run.
  induction l as [|a l IH]; intros run Hl Hrun Hs; cbn [fold_left].
  - rewrite app_nil_r. repeat split; auto. intros d. now rewrite app_nil_r.
  - inversion Hl as [|? ? Ha Hl']; subst.
    destruct (IH (insort key a run)) as (H1 & H2 & H3).
    + exact Hl'.
    + eapply Permutation_Forall; [symmetry; apply insort_perm|].
      constructor; assumption.
    + apply insort_sorted; assumption.
    + repeat split; [exact H1 | |].
      * eapply Permutation_trans; [exact H2|].
        eapply Permutation_trans;
          [apply Permutation_app_tail, insort_perm | apply Permutation_middle].
      * intros d. rewrite H3, insort_tie by exact Hs.
        rewrite <- app_assoc. cbn [filter]. destruct (tie key d a); reflexivity.
Qed.

Lemma sorted_spec (l : list A) :
  Forall (key_ok key) l ->
  StronglySorted (key_le key) (sorted key l)
  /\ Permutation (sorted key l) l
  /\ forall d, filter (tie key d) (sorted key l) = filter (tie key d) l.
Proof.
  intros Hl.
  destruct (sorted_from l [] Hl) as (H1 & H2 & H3); repeat constructor; auto.
Qed.

End SortedFacts.

(** ** distance_to *)

Lemma square_sign_clear {L : Float.Libm} (v : float) : sign_clear (squared v).
Proof.
  destruct v as [s|s| |s m e]; cbn [squared]; try reflexivity.
  destruct (Float.eqb _ _); [reflexivity | apply Float.c_pow2_sign].
Qed.

(** [iv == 1.0] holds of [1.0] alone. *)
Lemma eqb_one (m : positive) (e : Z) :
  Float.eqb (S754_finite false m e) Float.one = true ->
  S754_finite false m e = Float.one.
Proof.
  unfold Float.eqb, SFeqb, Float.one. cbn [SFcompare].
  destruct (Z.compare_spec e (-52)) as [->| |]; try discriminate.
  intros H.
  destruct (PosDef.Pos.compare_cont Eq m 4503599627370496) eqn:Hc;
    try discriminate.
  apply (Pos.compare_eq m) in Hc. rewrite Hc. reflexivity.
Qed.

Lemma add_sign_clear (a b : float) :
  sign_clear a -> sign_clear b -> sign_clear (Float.add a b).
Proof.
  destruct a as [sa|sa| |sa ma ea], b as [sb|sb| |sb mb eb]; cbn;
    intros Ha Hb; subst; cbn; auto.
  unfold binary_round.
  destruct (shl_align _ _ _) as [mz ez].
  apply binary_round_aux_sign_clear.
Qed.

Lemma sqrt_sign_clear (v : float) :
  sign_clear v -> Float.sqrt v = Ok (SFsqrt Float.prec Float.emax v).
Proof.
  destruct v as [s|s| |s m e]; cbn; intros H; subst; reflexivity.
Qed.

Lemma square_abs (s : bool) (m : positive) (e : Z) :
  Float.mul (SFabs (S754_finite s m e)) (SFabs (S754_finite s m e))
  = square (S754_finite s m e).
Proof. unfold square. cbn. now rewrite xorb_nilpotent. Qed.

Lemma pow2_spec {L : Float.Libm} (v : float) :
  Float.pow2 v
  = if square_overflows v then Raise OverflowError else Ok (squared v).
Proof.
  destruct v as [s|s| |s m e]; try reflexivity.
  unfold square_overflows. cbn [Float.pow2 squared].
  destruct (Float.eqb _ _) eqn:Hone.
  - apply eqb_one in Hone. rewrite <- square_abs.
    cbn [SFabs] in *. rewrite Hone. reflexivity.
  - pose proof (Float.c_pow2_overflow (SFabs (S754_finite s m e)) eq_refl) as H.
    rewrite square_abs in H.
    destruct (Float.c_pow2 _), (square _); cbn in H;
      try discriminate; reflexivity.
Qed.

Lemma distance_to_spec {L : Float.Libm} (a b : Point3D) :
  distance_to a b
  = if distance_overflows a b then Raise OverflowError
    else Ok (euclidean_norm a b).
Proof.
  unfold distance_to, distance_overflows, euclidean_norm.
  rewrite !pow2_spec.
  destruct (square_overflows (Float.sub (px a) (px b))); [reflexivity|].
  destruct (square_overflows (Float.sub (py a) (py b))); [reflexivity|].
  destruct (square_overflows (Float.sub (pz a) (pz b))); [reflexivity|].
  cbn [bind orb]. apply sqrt_sign_clear.
  repeat apply add_sign_clear; apply square_sign_clear.
Qed.

(** The difference of a finite float and itself is [+0.0]. *)
Lemma sub_diag (v : float) :
  Float.is_finite v = true -> Float.sub v v = Float.zero.
Proof.
  destruct v as [[]|s| |s m e]; cbn; try discriminate; try reflexivity.
  intros _. rewrite Z.sub_diag. reflexivity.
Qed.

Lemma distance_to_self {L : Float.Libm} (p q : Point3D) :
  finite_point p = true -> q = p -> distance_to p q = Ok Float.zero.
Proof.
  intros Hp ->. unfold finite_point in Hp.
  apply andb_prop in Hp. destruct Hp as [Hp Hz].
  apply andb_prop in Hp. destruct Hp as [Hx Hy].
  unfold distance_to. rewrite !sub_diag by assumption. reflexivity.
Qed.

(** ** The loops *)

Lemma zone_scan_is_scan {L : Float.Libm} (zone : Zone.t) (todo : list SpatialEntity.t)
    (results : list hit) :
  zone_scan zone todo results = scan (zone_probe zone) todo results.
Proof.
  revert results.
  induction todo as [|entity todo IH]; intros results; [reflexivity|].
  cbn [zone_scan scan]. unfold zone_probe at 1.
  destruct (distance_to _ _) as [dist|e]; cbn [bind]; [|reflexivity].
  destruct (Float.leb dist (Zone.radius zone)); apply IH.
Qed.

Lemma proximity_scan_is_scan {L : Float.Libm} (target : SpatialEntity.t) (threshold : float)
    (todo : list SpatialEntity.t) (results : list hit) :
  proximity_scan target threshold todo results
  = scan (near_probe target threshold) todo results.
Proof.
  revert results.
  induction todo as [|entity todo IH]; intros results; [reflexivity|].
  cbn [proximity_scan scan]. unfold near_probe at 1.
  destruct (Z.eqb _ _); cbn [bind]; [apply IH|].
  destruct (distance_to _ _) as [dist|e]; cbn [bind]; [|reflexivity].
  destruct (Float.leb dist threshold); apply IH.
Qed.

Lemma scan_ok (f : probe) (todo : list SpatialEntity.t) (results res : list hit) :
  scan f todo results = Ok res -> res = results ++ hits_of f todo.
Proof.
  revert results.
  induction todo as [|entity todo IH]; intros results H; cbn in *.
  - rewrite app_nil_r. congruence.
  - destruct (f entity) as [[dist|]|e]; cbn in H; try discriminate.
    + rewrite (IH _ H), <- app_assoc. reflexivity.
    + apply (IH _ H).
Qed.

Lemma scan_total (f : probe) (todo : list SpatialEntity.t) (results : list hit) :
  Forall (fun e => exists o, f e = Ok o) todo ->
  scan f todo results = Ok (results ++ hits_of f todo).
Proof.
  intros Hall. revert results.
  induction Hall as [|entity todo [o Ho] Hall IH]; intros results; cbn.
  - now rewrite app_nil_r.
  - rewrite Ho. cbn. destruct o as [dist|].
    + rewrite IH, <- app_assoc. reflexivity.
    + apply IH.
Qed.

Lemma forallb_false {A : Type} (p : A -> bool) (l : list A) :
  forallb p l = false -> exists a, In a l /\ p a = false.
Proof.
  induction l as [|a l IH]; cbn; [discriminate|].
  destruct (p a) eqn:Hp; cbn.
  - intros H. destruct (IH H) as (b & Hb & Hpb). exists b. auto.
  - intros _. exists a. auto.
Qed.

Lemma scan_raise (f : probe) (x : exn) (todo : list SpatialEntity.t)
    (results : list hit) :
  (forall e y, f e = Raise y -> y = x) ->
  (exists e, In e todo /\ f e = Raise x) ->
  scan f todo results = Raise x.
Proof.
  intros Honly (e & He & Hraise). revert results.
  induction todo as [|entity todo IH]; intros results; [contradiction|].
  cbn [scan]. destruct (f entity) as [o|y] eqn:Hf; cbn [bind].
  - destruct He as [->|He]; [congruence|].
    destruct o; apply IH; exact He.
  - now rewrite (Honly entity y Hf).
Qed.

Lemma zone_probe_raise {L : Float.Libm} (zone : Zone.t) (e : SpatialEntity.t) (y : exn) :
  zone_probe zone e = Raise y
  <-> y = OverflowError
      /\ distance_overflows (SpatialEntity.position e) (Zone.center zone) = true.
Proof.
  unfold zone_probe. rewrite distance_to_spec.
  destruct (distance_overflows _ _); cbn; split.
  - intros H. inversion H. auto.
  - intros [-> _]. reflexivity.
  - discriminate.
  - intros [_ H]. discriminate.
Qed.

Lemma in_hits_of (f : probe) (es : list SpatialEntity.t) (e : SpatialEntity.t)
    (d : float) :
  In (e, d) (hits_of f es) <-> In e es /\ f e = Ok (Some d).
Proof.
  unfold hits_of. rewrite in_flat_map. split.
  - intros (e' & Hin & H).
    destruct (f e') as [[d'|]|] eqn:Hf; cbn in H; try contradiction.
    destruct H as [H|[]]. inversion H; subst. auto.
  - intros [Hin Hf]. exists e. split; [exact Hin|]. rewrite Hf. now left.
Qed.

Lemma hits_of_tie (f : probe) (es : list SpatialEntity.t) (d : float) :
  map fst (filter (tie snd d) (hits_of f es)) = filter (appended_at f d) es.
Proof.
  induction es as [|e es IH]; [reflexivity|].
  cbn [hits_of flat_map filter]. rewrite filter_app, map_app.
  fold (hits_of f es). rewrite IH. unfold appended_at at 2.
  destruct (f e) as [[x|]|]; cbn; try reflexivity.
  unfold tie. cbn. destruct (Float.eqb x d); reflexivity.
Qed.

Lemma hits_of_key_ok (f : probe) (es : list SpatialEntity.t) :
  (forall e d, f e = Ok (Some d) -> Float.is_nan d = false) ->
  Forall (key_ok snd) (hits_of f es).
Proof.
  intros Hf. apply Forall_forall. intros [e d] Hin.
  apply in_hits_of in Hin. destruct Hin as [_ H]. exact (Hf e d H).
Qed.

Lemma zone_probe_some {L : Float.Libm} (zone : Zone.t) (e : SpatialEntity.t) (d : float) :
  zone_probe zone e = Ok (Some d)
  <-> distance_to (SpatialEntity.position e) (Zone.center zone) = Ok d
      /\ Float.leb d (Zone.radius zone) = true.
Proof.
  unfold zone_probe.
  destruct (distance_to _ _) as [x|]; cbn; [|split; [|intros []]; discriminate].
  destruct (Float.leb x (Zone.radius zone)) eqn:Hle; split.
  - intros H. inversion H; subst. auto.
  - intros [H _]. congruence.
  - discriminate.
  - intros [H H']. inversion H; subst. congruence.
Qed.

Lemma near_probe_some {L : Float.Libm} (target : SpatialEntity.t) (threshold : float)
    (e : SpatialEntity.t) (d : float) :
  near_probe target threshold e = Ok (Some d)
  <-> SpatialEntity.id e <> SpatialEntity.id target
      /\ distance_to (SpatialEntity.position e) (SpatialEntity.position target)
         = Ok d
      /\ Float.leb d threshold = true.
Proof.
  unfold near_probe.
  destruct (Z.eqb_spec (SpatialEntity.id e) (SpatialEntity.id target)) as [Hid|Hid].
  { split; [discriminate | intros [H _]; contradiction]. }
  destruct (distance_to _ _) as [x|]; cbn;
    [|split; [|intros (_ & H & _)]; discriminate].
  destruct (Float.leb x threshold) eqn:Hle; split.
  - intros H. inversion H; subst. auto.
  - intros (_ & H & _). congruence.
  - discriminate.
  - intros (_ & H & H'). inversion H; subst. congruence.
Qed.

(** What a query returns when its loop ends: the appended entries, sorted,
    with ties in the order of the scan. *)
Lemma sorted_scan_spec (f : probe) (es : list SpatialEntity.t) (res : list hit) :
  (forall e d, f e = Ok (Some d) -> Float.is_nan d = false) ->
  scan f es [] = Ok res ->
  sorted_by_distance (sorted snd res)
  /\ (forall e d, In (e, d) (sorted snd res) <-> In e es /\ f e = Ok (Some d))
  /\ (forall d, map fst (filter (tie snd d) (sorted snd res))
                = filter (appended_at f d) es).
Proof.
  intros Hf Hscan. apply scan_ok in Hscan. cbn in Hscan. subst res.
  destruct (sorted_spec snd (hits_of f es) (hits_of_key_ok f es Hf))
    as (Hsorted & Hperm & Htie).
  split; [exact Hsorted|]. split.
  - intros e d. rewrite <- in_hits_of. split; apply Permutation_in;
      [exact Hperm | symmetry; exact Hperm].
  - intros d. rewrite Htie. apply hits_of_tie.
Qed.

(** ** Order of occurrence *)

Lemma precedes_filter_intro {A : Type} (keep : A -> bool) (l : list A) (x y : A) :
  precedes l x y -> keep x = true -> keep y = true ->
  precedes (filter keep l) x y.
Proof.
  intros (l1 & l2 & l3 & ->) Hx Hy.
  exists (filter keep l1), (filter keep l2), (filter keep l3).
  rewrite filter_app. cbn. rewrite Hx, filter_app. cbn. rewrite Hy. reflexivity.
Qed.

Lemma precedes_map {A B : Type} (g : A -> B) (l : list A) (x y : A) :
  precedes l x y -> precedes (map g l) (g x) (g y).
Proof.
  intros (l1 & l2 & l3 & ->).
  exists (map g l1), (map g l2), (map g l3).
  rewrite map_app. cbn. rewrite map_app. reflexivity.
Qed.

Lemma precedes_cons {A : Type} (a : A) (l : list A) (x y : A) :
  precedes l x y -> precedes (a :: l) x y.
Proof.
  intros (l1 & l2 & l3 & ->). now exists (a :: l1), l2, l3.
Qed.

Lemma precedes_filter_elim {A : Type} (keep : A -> bool) (l : list A) (x y : A) :
  precedes (filter keep l) x y -> precedes l x y.
Proof.
  induction l as [|a l IH]; cbn.
  - intros (l1 & l2 & l3 & H). destruct l1; discriminate.
  - destruct (keep a) eqn:Ha.
    + intros (l1 & l2 & l3 & H). destruct l1 as [|a' l1]; cbn in H.
      * inversion H as [[Hax Hl]]. subst a.
        assert (Hy : In y (filter keep l)).
        { rewrite Hl. apply in_or_app. right. now left. }
        apply filter_In in Hy. destruct Hy as [Hy _].
        apply in_split in Hy. destruct Hy as (la & lb & ->).
        now exists [], la, lb.
      * inversion H as [[Haa Hl]]. apply precedes_cons, IH.
        now exists l1, l2, l3.
    + intros H. apply precedes_cons, IH, H.
Qed.

(** Ties listed in the order of [es] are stable in [es]. *)
Lemma ties_in_order_stable (es : list SpatialEntity.t) (res : list hit)
    (keep : float -> SpatialEntity.t -> bool) :
  (forall d, map fst (filter (tie snd d) res) = filter (keep d) es) ->
  stable_in es res.
Proof.
  intros Htie [e1 d1] [e2 d2] Hprec Heq. cbn in *.
  destruct (FloatOrder.eqb_not_nan _ _ Heq) as [_ Hd2].
  apply precedes_filter_elim with (keep := keep d2).
  rewrite <- Htie.
  apply (precedes_map fst _ (e1, d1) (e2, d2)).
  apply precedes_filter_intro; [exact Hprec | exact Heq |].
  apply FloatOrder.eqb_refl, Hd2.
Qed.

(** ** Lookup by name *)

Lemma find_none_iff {A : Type} (p : A -> bool) (l : list A) :
  find p l = None <-> forall a, In a l -> p a = false.
Proof.
  split.
  - intros H a Ha. exact (find_none p l H a Ha).
  - induction l as [|a l IH]; intros H; cbn; [reflexivity|].
    rewrite (H a (or_introl eq_refl)). apply IH.
    intros b Hb. apply H. now right.
Qed.

Lemma zone_by_name_ok (db : DB) (zone_name : string) (row : option Zone.t) :
  Sqlite.zone_by_name db zone_name = Ok row
  <-> Sqlite.encodable zone_name = true
      /\ find (fun r => String.eqb (Zone.name r) zone_name) (zones db) = row.
Proof.
  unfold Sqlite.zone_by_name, Sqlite.bind_text.
  destruct (Sqlite.encodable zone_name); cbn; split.
  - intros H. inversion H. auto.
  - intros [_ ->]. reflexivity.
  - discriminate.
  - intros [H _]. discriminate.
Qed.

Lemma entity_by_name_ok (db : DB) (entity_name : string)
    (row : option SpatialEntity.t) :
  Sqlite.entity_by_name db entity_name = Ok row
  <-> Sqlite.encodable entity_name = true
      /\ find (fun r => String.eqb (SpatialEntity.name r) entity_name)
           (entities db) = row.
Proof.
  unfold Sqlite.entity_by_name, Sqlite.bind_text.
  destruct (Sqlite.encodable entity_name); cbn; split.
  - intros H. inversion H. auto.
  - intros [_ ->]. reflexivity.
  - discriminate.
  - intros [H _]. discriminate.
Qed.

Lemma zone_by_name_in (db : DB) (zone_name : string) (zone : Zone.t) :
  Sqlite.zone_by_name db zone_name = Ok (Some zone) ->
  In zone (zones db) /\ Zone.name zone = zone_name.
Proof.
  intros H. apply zone_by_name_ok in H. destruct H as [_ H].
  apply find_some in H. destruct H as [Hin Hname].
  split; [exact Hin | now apply String.eqb_eq].
Qed.

Lemma entity_by_name_in (db : DB) (entity_name : string)
    (target : SpatialEntity.t) :
  Sqlite.entity_by_name db entity_name = Ok (Some target) ->
  In target (entities db) /\ SpatialEntity.name target = entity_name.
Proof.
  intros H. apply entity_by_name_ok in H. destruct H as [_ H].
  apply find_some in H. destruct H as [Hin Hname].
  split; [exact Hin | now apply String.eqb_eq].
Qed.

Lemma zone_by_name_unique (db : DB) (zone : Zone.t) :
  NoDup (map Zone.name (zones db)) -> In zone (zones db) ->
  Sqlite.encodable (Zone.name zone) = true ->
  Sqlite.zone_by_name db (Zone.name zone) = Ok (Some zone).
Proof.
  intros Hnd Hin Henc. apply zone_by_name_ok. split; [exact Henc|].
  induction (zones db) as [|r rows IH]; cbn; [contradiction|].
  inversion Hnd as [|? ? Hfresh Hnd']; subst.
  destruct Hin as [->|Hin].
  - now rewrite String.eqb_refl.
  - destruct (String.eqb_spec (Zone.name r) (Zone.name zone)) as [Heq|_].
    + exfalso. apply Hfresh. rewrite Heq. now apply in_map.
    + now apply IH.
Qed.

(** ** Zone membership *)

Lemma zone_query_total {L : Float.Libm} (db : DB) (zone_name : string)
    (zone : Zone.t) :
  Sqlite.zone_by_name db zone_name = Ok (Some zone) ->
  forallb (fun e => negb (distance_overflows (SpatialEntity.position e)
                            (Zone.center zone)))
    (list_entities db) = true ->
  exists res,
    find_entities_in_zone db zone_name = Ok res
    /\ forall e d,
         In (e, d) res
         <-> In e (list_entities db)
             /\ distance_to (SpatialEntity.position e) (Zone.center zone) = Ok d
             /\ Float.leb d (Zone.radius zone) = true.
Proof.
  intros Hzone Hrange. unfold find_entities_in_zone.
  rewrite Hzone. cbn [bind]. rewrite zone_scan_is_scan.
  assert (Htotal : scan (zone_probe zone) (list_entities db) []
                   = Ok ([] ++ hits_of (zone_probe zone) (list_entities db))).
  { apply scan_total. apply Forall_forall. intros e He.
    rewrite forallb_forall in Hrange. specialize (Hrange e He).
    unfold zone_probe. rewrite distance_to_spec.
    apply negb_true_iff in Hrange. rewrite Hrange. cbn. eauto. }
  rewrite Htotal. cbn [bind app]. eexists. split; [reflexivity|].
  intros e d.
  assert (Hok : forall e' d', zone_probe zone e' = Ok (Some d') ->
                             Float.is_nan d' = false).
  { intros e' d' H. apply zone_probe_some in H.
    exact (proj1 (FloatOrder.leb_not_nan _ _ (proj2 H))). }
  destruct (sorted_scan_spec _ _ _ Hok Htotal) as (_ & Hin & _).
  cbn [app] in Hin. rewrite Hin, zone_probe_some. reflexivity.
Qed.

Lemma zone_query_raises {L : Float.Libm} (db : DB) (zone_name : string)
    (zone : Zone.t) :
  Sqlite.zone_by_name db zone_name = Ok (Some zone) ->
  forallb (fun e => negb (distance_overflows (SpatialEntity.position e)
                            (Zone.center zone)))
    (list_entities db) = false ->
  find_entities_in_zone db zone_name = Raise OverflowError.
Proof.
  intros Hzone Hrange. unfold find_entities_in_zone.
  rewrite Hzone. cbn [bind]. rewrite zone_scan_is_scan.
  rewrite (scan_raise (zone_probe zone) OverflowError); [reflexivity | |].
  - intros e y H. apply zone_probe_raise in H. exact (proj1 H).
  - destruct (forallb_false _ _ Hrange) as (e & He & Hfar).
    exists e. split; [exact He|].
    apply zone_probe_raise. split; [reflexivity|].
    apply negb_false_iff. exact Hfar.
Qed.

(** X16. [find_entities_in_zone] measures every stored entity.  When none
    of them is so far from the centre of the zone that the square of a
    coordinate difference is out of range, the call returns a list, and an
    entity [E] appears in it paired with [d] exactly when [E] is a stored
    entity, [d] is its distance to the centre and [d <= Z.radius]; the
    comparison is [<=], so that an entity at distance exactly the radius is
    included.  When some stored entity is that far, the call raises
    [OverflowError]. *)
Theorem zone_membership_iff_within_radius {L : Float.Libm} (db : DB)
    (zone_name : string) (zone : Zone.t)
    (Hzone : Sqlite.zone_by_name db zone_name = Ok (Some zone)) :
  let in_range e :=
    negb (distance_overflows (SpatialEntity.position e) (Zone.center zone)) in
  (forallb in_range (list_entities db) = true ->
   exists res,
     find_entities_in_zone db zone_name = Ok res
     /\ forall e d,
          In (e, d) res
          <-> In e (list_entities db)
              /\ distance_to (SpatialEntity.position e) (Zone.center zone) = Ok d
              /\ Float.leb d (Zone.radius zone) = true)
  /\ (forallb in_range (list_entities db) = false ->
      find_entities_in_zone db zone_name = Raise OverflowError).
Proof.
  intros in_range. split.
  - apply zone_query_total, Hzone.
  - apply zone_query_raises, Hzone.
Qed.

(** C1. The code does not do what the claim says on [far_db]: [p1] is
    stored at distance 3 from the centre of zone [A], whose radius is 5,
    and the query for [A] returns no list in which [p1] could appear.  It
    raises [OverflowError] when it squares the coordinate difference of the
    entity registered at [x = 1e200], whatever the libm. *)
Theorem far_entity_breaks_zone_query {L : Float.Libm} :
  In zone_A (list_zones far_db true)
  /\ In p1 (list_entities far_db)
  /\ find_entities_in_zone far_db (Zone.name zone_A) = Raise OverflowError
  /\ ~ (exists res d,
          find_entities_in_zone far_db (Zone.name zone_A) = Ok res
          /\ In (p1, d) res).
Proof.
  assert (H : find_entities_in_zone far_db (Zone.name zone_A)
              = Raise OverflowError).
  { apply (zone_query_raises far_db (Zone.name zone_A) zone_A);
      vm_compute; reflexivity. }
  split; [|split; [|split]].
  - vm_compute. left. reflexivity.
  - vm_compute. left. reflexivity.
  - exact H.
  - intros (res & d & Hres & _). rewrite H in Hres. discriminate.
Qed.

Section Cases1.

#[local] Existing Instance rounded_libm.

(** On the database of the scenario, zone [A] holds [p1] at distance 3 and
    excludes [p2] at distance 10. *)
Lemma zone_membership_iff_within_radius_witness :
  exists res,
    find_entities_in_zone zone_A_db (Zone.name zone_A) = Ok res
    /\ forall e d,
         In (e, d) res
         <-> In e (list_entities zone_A_db)
             /\ distance_to (SpatialEntity.position e) (Zone.center zone_A) = Ok d
             /\ Float.leb d (Zone.radius zone_A) = true.
Proof.
  destruct (zone_membership_iff_within_radius zone_A_db (Zone.name zone_A) zone_A)
    as [Hin _].
  - vm_compute. reflexivity.
  - apply Hin. vm_compute. reflexivity.
Defined.

(** With the libm that rounds correctly, [p1] is at distance [3.0] from the
    centre of zone [A] in [far_db] too, within the radius. *)
Example p1_is_within_zone_A :
  distance_to (SpatialEntity.position p1) (Zone.center zone_A) = Ok (flt 3)
  /\ Float.leb (flt 3) (Zone.radius zone_A) = true.
Proof. vm_compute. split; reflexivity. Qed.

(** The scenario of the specification: [in-zone A] lists [p1] alone, at
    distance [3.0]. *)
Example in_zone_A : find_entities_in_zone zone_A_db "A" = Ok [(p1, flt 3)].
Proof. vm_compute. reflexivity. Qed.

(** The boundary is inside: an entity at [(3, 4, 0)] is at distance exactly
    5 from the centre of zone [A], whose radius is 5, and is returned. *)
Example on_the_sphere :
  find_entities_in_zone
    (mkDB [zone_A] [SpatialEntity.mk 1 "rim" (flt 3) (flt 4) (flt 0) "object" "{}" t0] 1 1)
    "A"
  = Ok [(SpatialEntity.mk 1 "rim" (flt 3) (flt 4) (flt 0) "object" "{}" t0, flt 5)].
Proof. vm_compute. reflexivity. Qed.

End Cases1.

(** ** Order of the results *)

Lemma zone_probe_not_nan {L : Float.Libm} (zone : Zone.t) (e : SpatialEntity.t) (d : float) :
  zone_probe zone e = Ok (Some d) -> Float.is_nan d = false.
Proof.
  intros H. apply zone_probe_some in H.
  exact (proj1 (FloatOrder.leb_not_nan _ _ (proj2 H))).
Qed.

Lemma near_probe_not_nan {L : Float.Libm} (target : SpatialEntity.t) (threshold : float)
    (e : SpatialEntity.t) (d : float) :
  near_probe target threshold e = Ok (Some d) -> Float.is_nan d = false.
Proof.
  intros H. apply near_probe_some in H.
  exact (proj1 (FloatOrder.leb_not_nan _ _ (proj2 (proj2 H)))).
Qed.

Lemma stable_in_nil (es : list SpatialEntity.t) : stable_in es [].
Proof.
  intros h1 h2 (l1 & l2 & l3 & H). destruct l1; discriminate.
Qed.

(** C2. Whatever the stored entities, a list that [find_entities_in_zone]
    or [proximity_check] returns is non-decreasing in its distance
    component, and two of its entries with equal distances stand in the
    order in which their entities were loaded. *)
Theorem query_results_sorted_and_stable {L : Float.Libm} (db : DB) :
  (forall zone_name res,
      find_entities_in_zone db zone_name = Ok res ->
      sorted_by_distance res /\ stable_in (list_entities db) res)
  /\ (forall entity_name threshold res,
        proximity_check db entity_name threshold = Ok res ->
        sorted_by_distance res /\ stable_in (list_entities db) res).
Proof.
  split.
  - intros zone_name res. unfold find_entities_in_zone.
    destruct (Sqlite.zone_by_name db zone_name) as [[zone|]|]; cbn [bind];
      [| |discriminate].
    + rewrite zone_scan_is_scan.
      destruct (scan _ _ _) as [hits|e] eqn:Hscan; cbn; [|discriminate].
      intros H. inversion H; subst res.
      destruct (sorted_scan_spec _ _ _ (zone_probe_not_nan zone) Hscan)
        as (Hsorted & _ & Htie).
      split; [exact Hsorted|].
      exact (ties_in_order_stable _ _ _ Htie).
    + intros H. inversion H. split; [constructor | apply stable_in_nil].
  - intros entity_name threshold res. unfold proximity_check.
    destruct (Sqlite.entity_by_name db entity_name) as [[target|]|];
      cbn [bind]; [| |discriminate].
    + rewrite proximity_scan_is_scan.
      destruct (scan _ _ _) as [hits|e] eqn:Hscan; cbn; [|discriminate].
      intros H. inversion H; subst res.
      destruct (sorted_scan_spec _ _ _ (near_probe_not_nan target threshold) Hscan)
        as (Hsorted & _ & Htie).
      split; [exact Hsorted|].
      exact (ties_in_order_stable _ _ _ Htie).
    + intros H. inversion H. split; [constructor | apply stable_in_nil].
Qed.

Section Cases2.

#[local] Existing Instance rounded_libm.

Lemma query_results_sorted_and_stable_witness :
  (sorted_by_distance
     [(ent 1 "a" 0, flt 0); (ent 4 "twin" 0, flt 0); (ent 2 "b" 1, flt 1);
      (ent 3 "c" 2, flt 2)]
   /\ stable_in (list_entities line_db)
        [(ent 1 "a" 0, flt 0); (ent 4 "twin" 0, flt 0); (ent 2 "b" 1, flt 1);
         (ent 3 "c" 2, flt 2)])
  /\ (sorted_by_distance
        [(ent 2 "b" 1, flt 1); (ent 1 "a" 0, flt 2); (ent 4 "twin" 0, flt 2)]
      /\ stable_in (list_entities line_db)
           [(ent 2 "b" 1, flt 1); (ent 1 "a" 0, flt 2); (ent 4 "twin" 0, flt 2)]).
Proof.
  destruct (query_results_sorted_and_stable line_db) as [Hzone Hnear].
  split.
  - apply (Hzone "A"). vm_compute. reflexivity.
  - apply (Hnear "c" (flt 5)). vm_compute. reflexivity.
Defined.

(** Around [c] of [line_db], [b] is at distance 1 and [a] and [twin] are
    both at distance 2; the tie keeps [a], loaded first, before [twin]. *)
Example proximity_tie :
  proximity_check line_db "c" (flt 5)
  = Ok [(ent 2 "b" 1, flt 1); (ent 1 "a" 0, flt 2); (ent 4 "twin" 0, flt 2)].
Proof. vm_compute. reflexivity. Qed.

End Cases2.

(** ** The target of a proximity check *)

(** C3. The list [proximity_check] returns for a target has no entry whose
    entity carries the id of the target.  The exclusion is by id and not by
    position: a stored entity with another id at the very coordinates of
    the target, when these are finite, is returned at distance [0.0] for
    every threshold that [0.0] does not exceed. *)
Theorem proximity_excludes_target_by_id {L : Float.Libm} (db : DB) (entity_name : string)
    (threshold : float) (target : SpatialEntity.t) (res : list hit)
    (Htarget : Sqlite.entity_by_name db entity_name = Ok (Some target))
    (Hres : proximity_check db entity_name threshold = Ok res) :
  (forall e d, In (e, d) res -> SpatialEntity.id e <> SpatialEntity.id target)
  /\ (forall e,
        In e (list_entities db) ->
        SpatialEntity.id e <> SpatialEntity.id target ->
        SpatialEntity.position e = SpatialEntity.position target ->
        finite_point (SpatialEntity.position target) = true ->
        Float.leb Float.zero threshold = true ->
        In (e, Float.zero) res).
Proof.
  unfold proximity_check in Hres. rewrite Htarget in Hres. cbn [bind] in Hres.
  rewrite proximity_scan_is_scan in Hres.
  destruct (scan _ _ _) as [hits|] eqn:Hscan; cbn in Hres; [|discriminate].
  inversion Hres; subst res.
  destruct (sorted_scan_spec _ _ _ (near_probe_not_nan target threshold) Hscan)
    as (_ & Hin & _).
  split.
  - intros e d H. apply Hin in H. destruct H as [_ H].
    apply near_probe_some in H. exact (proj1 H).
  - intros e He Hid Hpos Hfin Hthr. apply Hin. split; [exact He|].
    apply near_probe_some. split; [exact Hid|]. split; [|exact Hthr].
    apply distance_to_self; [rewrite Hpos|]; auto.
Qed.

Section Cases3.

#[local] Existing Instance rounded_libm.

(** In [line_db] the target [a] is left out and [twin], which has the
    coordinates of [a] and another id, is returned. *)
Lemma proximity_excludes_target_by_id_witness :
  proximity_check line_db "a" (flt 0) = Ok [(ent 4 "twin" 0, flt 0)]
  /\ (forall e d, In (e, d) [(ent 4 "twin" 0, flt 0)] ->
                  SpatialEntity.id e <> SpatialEntity.id (ent 1 "a" 0))
  /\ (forall e,
        In e (list_entities line_db) ->
        SpatialEntity.id e <> SpatialEntity.id (ent 1 "a" 0) ->
        SpatialEntity.position e = SpatialEntity.position (ent 1 "a" 0) ->
        finite_point (SpatialEntity.position (ent 1 "a" 0)) = true ->
        Float.leb Float.zero (flt 0) = true ->
        In (e, Float.zero) [(ent 4 "twin" 0, flt 0)]).
Proof.
  assert (H : proximity_check line_db "a" (flt 0) = Ok [(ent 4 "twin" 0, flt 0)])
    by (vm_compute; reflexivity).
  split; [exact H|].
  apply (proximity_excludes_target_by_id line_db "a" (flt 0) (ent 1 "a" 0)).
  - vm_compute. reflexivity.
  - exact H.
Defined.

(** The scenario of the specification: [proximity a --threshold 1.5] over
    [a], [b] and [c] lists [b] alone, at distance [1.0]. *)
Example proximity_a :
  proximity_check
    (mkDB [] [ent 1 "a" 0; ent 2 "b" 1; ent 3 "c" 2] 0 3) "a" one_and_a_half
  = Ok [(ent 2 "b" 1, flt 1)].
Proof. vm_compute. reflexivity. Qed.

End Cases3.

(** ** Unknown names *)

(** X17. When no zone row carries [zone_name], [find_entities_in_zone]
    returns the empty list if the name has a UTF-8 encoding and raises
    [UnicodeEncodeError] if it has none; when no entity row carries
    [entity_name], the same holds of [proximity_check]. *)
Theorem unknown_name_yields_empty {L : Float.Libm} (db : DB)
    (zone_name entity_name : string) (threshold : float)
    (Hzone : forall r, In r (zones db) -> Zone.name r <> zone_name)
    (Hentity : forall r, In r (entities db) -> SpatialEntity.name r <> entity_name) :
  find_entities_in_zone db zone_name
  = (if Sqlite.encodable zone_name then Ok [] else Raise UnicodeEncodeError)
  /\ proximity_check db entity_name threshold
     = (if Sqlite.encodable entity_name then Ok []
        else Raise UnicodeEncodeError).
Proof.
  unfold find_entities_in_zone, proximity_check,
    Sqlite.zone_by_name, Sqlite.entity_by_name, Sqlite.bind_text.
  replace (find _ (zones db)) with (@None Zone.t).
  replace (find _ (entities db)) with (@None SpatialEntity.t).
  - destruct (Sqlite.encodable zone_name), (Sqlite.encodable entity_name);
      split; reflexivity.
  - symmetry. apply find_none_iff. intros r Hr.
    apply String.eqb_neq, Hentity, Hr.
  - symmetry. apply find_none_iff. intros r Hr.
    apply String.eqb_neq, Hzone, Hr.
Qed.

Section Cases4.

#[local] Existing Instance rounded_libm.

Lemma unknown_name_yields_empty_witness :
  find_entities_in_zone line_db "B" = Ok []
  /\ proximity_check line_db "nobody" (flt 50) = Ok [].
Proof.
  apply (unknown_name_yields_empty line_db "B" "nobody" (flt 50)).
  - vm_compute. intros r [<-|[]]. discriminate.
  - vm_compute. intros r [<-|[<-|[<-|[<-|[]]]]]; discriminate.
Defined.

End Cases4.

(** C4.  The code does not do what the claim says at the name
    [stray_byte_name], which the command line yields for the argument bytes
    63 E9.  No row of [line_db] carries it, no zone and no entity, and
    both queries raise [UnicodeEncodeError] when they bind it to the [?] of
    their SELECT, where a name without a row is to give the empty list. *)
Theorem unencodable_name_raises {L : Float.Libm} :
  (forall r, In r (zones line_db) -> Zone.name r <> stray_byte_name)
  /\ (forall r, In r (entities line_db) ->
                SpatialEntity.name r <> stray_byte_name)
  /\ find_entities_in_zone line_db stray_byte_name = Raise UnicodeEncodeError
  /\ proximity_check line_db stray_byte_name (flt 50)
     = Raise UnicodeEncodeError.
Proof.
  split; [|split; [|split]].
  - vm_compute. intros r [<-|[]]. discriminate.
  - vm_compute. intros r [<-|[<-|[<-|[<-|[]]]]]; discriminate.
  - vm_compute. reflexivity.
  - vm_compute. reflexivity.
Qed.

Section Cases5.

#[local] Existing Instance rounded_libm.

(** On the empty database as well. *)
Example stray_name_on_empty_db :
  find_entities_in_zone empty_db stray_byte_name = Raise UnicodeEncodeError
  /\ proximity_check empty_db stray_byte_name (flt 50)
     = Raise UnicodeEncodeError.
Proof. vm_compute. split; reflexivity. Qed.

End Cases5.

(** ** The activity flag *)




Section Cases6.

#[local] Existing Instance rounded_libm.


(** Zone [A] of [zone_A_db], once its flag is 0, is not listed and still
    answers the query with [p1]. *)
Example inactive_zone_A :
  list_zones (with_active (fun _ => 0) zone_A_db) true = []
  /\ find_entities_in_zone (with_active (fun _ => 0) zone_A_db) "A"
     = Ok [(p1, flt 3)].
Proof. vm_compute. split; reflexivity. Qed.

End Cases6.

(** ** add_zone *)

Lemma existsb_name (rows : list Zone.t) (r : Zone.t) :
  In r rows -> existsb (fun r' => String.eqb (Zone.name r') (Zone.name r)) rows = true.
Proof.
  intros Hr. apply existsb_exists. exists r. split; [exact Hr|].
  apply String.eqb_refl.
Qed.

Lemma existsb_name_fresh (rows : list Zone.t) (name : string) :
  (forall r, In r rows -> Zone.name r <> name) ->
  existsb (fun r => String.eqb (Zone.name r) name) rows = false.
Proof.
  intros Hfresh. induction rows as [|r rows IH]; [reflexivity|].
  cbn. rewrite (proj2 (String.eqb_neq _ _) (Hfresh r (or_introl eq_refl))).
  apply IH. intros r' Hr'. apply Hfresh. now right.
Qed.

Section Cases7.

#[local] Existing Instance rounded_libm.

Lemma default_zone_type_binds : Sqlite.encodable "generic" = true.
Proof. vm_compute. reflexivity. Qed.

Lemma default_entity_type_binds : Sqlite.encodable "object" = true.
Proof. vm_compute. reflexivity. Qed.

End Cases7.

(** What a call of [add_zone] that returns has checked and written. *)
Lemma add_zone_ok (db db' : DB) (now name : string) (cx cy cz radius : float)
    (zone_type : option string) (zone : Zone.t) :
  add_zone db now name cx cy cz radius zone_type = (Ok zone, db') ->
  zone_texts_bind name zone_type = true
  /\ existsb (fun r => String.eqb (Zone.name r) name) (zones db) = false
  /\ Float.is_nan cx || Float.is_nan cy || Float.is_nan cz
     || Float.is_nan radius = false
  /\ zone = Zone.mk (Sqlite.next_rowid (zones_seq db) (map Zone.id (zones db)))
              name cx cy cz radius
              match zone_type with Some t => t | None => "generic" end now 1
  /\ db' = mkDB (zones db ++ [Sqlite.zone_row zone]) (entities db) (Zone.id zone)
             (entities_seq db).
Proof.
  unfold add_zone, Sqlite.insert_zone, Sqlite.bind_text, Sqlite.not_null,
    zone_texts_bind.
  destruct (Sqlite.encodable name); [|discriminate]. cbn [bind andb].
  assert (Htype : Sqlite.encodable
                    match zone_type with Some t => t | None => "generic" end
                  = match zone_type with
                    | Some t => Sqlite.encodable t
                    | None => true
                    end).
  { destruct zone_type; [reflexivity | exact default_zone_type_binds]. }
  rewrite Htype. clear Htype.
  destruct (match zone_type with Some t => Sqlite.encodable t | None => true end);
    [|discriminate]. cbn [bind].
  destruct (Float.is_nan cx); [discriminate|].
  destruct (Float.is_nan cy); [discriminate|].
  destruct (Float.is_nan cz); [discriminate|].
  destruct (Float.is_nan radius); [discriminate|]. cbn [bind].
  destruct (existsb _ (zones db)); [discriminate|].
  intros H. inversion H. auto.
Qed.

(** When [add_zone] returns: the texts can be bound, no argument is NaN
    and the name is new. *)
Lemma add_zone_accepts (db : DB) (now name : string) (cx cy cz radius : float)
    (zone_type : option string) :
  zone_texts_bind name zone_type = true ->
  existsb (fun r => String.eqb (Zone.name r) name) (zones db) = false ->
  Float.is_nan cx || Float.is_nan cy || Float.is_nan cz
  || Float.is_nan radius = false ->
  exists zone db',
    add_zone db now name cx cy cz radius zone_type = (Ok zone, db').
Proof.
  unfold add_zone, Sqlite.insert_zone, Sqlite.bind_text, Sqlite.not_null,
    zone_texts_bind.
  intros Hbind Hfresh Hreal. rewrite Hfresh.
  destruct (Sqlite.encodable name); [|discriminate]. cbn [bind andb] in *.
  assert (Htype : Sqlite.encodable
                    match zone_type with Some t => t | None => "generic" end
                  = true).
  { destruct zone_type; [exact Hbind | exact default_zone_type_binds]. }
  rewrite Htype. cbn [bind].
  destruct (Float.is_nan cx); [discriminate|].
  destruct (Float.is_nan cy); [discriminate|].
  destruct (Float.is_nan cz); [discriminate|].
  destruct (Float.is_nan radius); [discriminate|]. cbn [bind].
  eexists. eexists. reflexivity.
Qed.

Lemma add_zone_raise (db : DB) (now name : string) (cx cy cz radius : float)
    (zone_type : option string) (x : exn) :
  fst (add_zone db now name cx cy cz radius zone_type) = Raise x ->
  snd (add_zone db now name cx cy cz radius zone_type) = db.
Proof.
  unfold add_zone.
  destruct (Sqlite.insert_zone _ _ _ _ _ _ _ _) as [[rowid db']|y];
    [discriminate | reflexivity].
Qed.

(** C5. When a zone row already carries the name, [add_zone] raises and the
    database after the call is the database before it: no row is added and
    none is changed.  The exception is [sqlite3.IntegrityError] whenever the
    name and the zone type can be bound, and then the constraint reported is
    the uniqueness of [zones.name] unless an argument is NaN; a name or a
    zone type that cannot be bound gives [UnicodeEncodeError] instead. *)
Theorem add_zone_duplicate_name_fails (db : DB) (now : string) (r : Zone.t)
    (cx cy cz radius : float) (zone_type : option string)
    (Hdup : In r (zones db)) :
  exists e,
    add_zone db now (Zone.name r) cx cy cz radius zone_type = (Raise e, db)
    /\ (zone_texts_bind (Zone.name r) zone_type = true ->
        exists c,
          e = IntegrityError c
          /\ (Float.is_nan cx || Float.is_nan cy || Float.is_nan cz
              || Float.is_nan radius = false ->
              c = Unique "zones.name"))
    /\ (zone_texts_bind (Zone.name r) zone_type = false ->
        e = UnicodeEncodeError).
Proof.
  unfold add_zone, Sqlite.insert_zone, Sqlite.bind_text, Sqlite.not_null,
    zone_texts_bind.
  rewrite (existsb_name _ _ Hdup).
  destruct (Sqlite.encodable (Zone.name r)); cbn [bind andb];
    [|eexists; split; [reflexivity|]; split; [discriminate | reflexivity]].
  assert (Htype : Sqlite.encodable
                    match zone_type with Some t => t | None => "generic" end
                  = match zone_type with
                    | Some t => Sqlite.encodable t
                    | None => true
                    end).
  { destruct zone_type; [reflexivity | exact default_zone_type_binds]. }
  rewrite Htype. clear Htype.
  destruct (match zone_type with Some t => Sqlite.encodable t | None => true end);
    cbn [bind];
    [|eexists; split; [reflexivity|]; split; [discriminate | reflexivity]].
  destruct (Float.is_nan cx);
    [cbn; eexists; split; [reflexivity|]; split; [|discriminate];
     intros _; eexists; split; [reflexivity | discriminate]|].
  destruct (Float.is_nan cy);
    [cbn; eexists; split; [reflexivity|]; split; [|discriminate];
     intros _; eexists; split; [reflexivity | discriminate]|].
  destruct (Float.is_nan cz);
    [cbn; eexists; split; [reflexivity|]; split; [|discriminate];
     intros _; eexists; split; [reflexivity | discriminate]|].
  destruct (Float.is_nan radius);
    cbn; eexists; (split; [reflexivity|]); (split; [|discriminate]);
    intros _; eexists; (split; [reflexivity|]); try discriminate.
  reflexivity.
Qed.

Section Cases8.

#[local] Existing Instance rounded_libm.

Lemma add_zone_duplicate_name_fails_witness :
  exists c,
    add_zone zone_A_db t0 (Zone.name zone_A) (flt 1) (flt 1) (flt 1) (flt 2) None
    = (Raise (IntegrityError c), zone_A_db)
    /\ (Float.is_nan (flt 1) || Float.is_nan (flt 1) || Float.is_nan (flt 1)
        || Float.is_nan (flt 2) = false ->
        c = Unique "zones.name").
Proof.
  destruct (add_zone_duplicate_name_fails zone_A_db t0 zone_A
              (flt 1) (flt 1) (flt 1) (flt 2) None)
    as (e & Hcall & Hbound & _); [vm_compute; left; reflexivity|].
  destruct (Hbound eq_refl) as (c & -> & Hunique).
  exists c. split; [exact Hcall | exact Hunique].
Defined.

(** A zone type that cannot be bound, with the name of a stored zone. *)
Example duplicate_name_with_stray_zone_type :
  add_zone zone_A_db t0 "A" (flt 1) (flt 1) (flt 1) (flt 2)
    (Some stray_byte_name)
  = (Raise UnicodeEncodeError, zone_A_db).
Proof. vm_compute. reflexivity. Qed.

End Cases8.

(** Distinct zone names are an invariant of [add_zone]. *)
Lemma add_zone_keeps_names_distinct (db : DB) (now name : string)
    (cx cy cz radius : float) (zone_type : option string) :
  NoDup (map Zone.name (zones db)) ->
  NoDup (map Zone.name (zones (snd (add_zone db now name cx cy cz radius zone_type)))).
Proof.
  intros Hnd.
  destruct (add_zone db now name cx cy cz radius zone_type) as [[zone|x] db']
    eqn:Hcall.
  - apply add_zone_ok in Hcall. destruct Hcall as (_ & Hfresh & _ & -> & ->).
    cbn [snd zones]. rewrite map_app. cbn [map Zone.name Sqlite.zone_row].
    apply NoDup_app; [exact Hnd | repeat constructor; intros [] |].
    intros n Hn [<-|[]]. apply in_map_iff in Hn. destruct Hn as (r & Hname & Hr).
    assert (H : existsb (fun r => String.eqb (Zone.name r) name) (zones db) = true).
    { apply existsb_exists. exists r. split; [exact Hr|]. now apply String.eqb_eq. }
    congruence.
  - pose proof (add_zone_raise db now name cx cy cz radius zone_type x) as H.
    rewrite Hcall in H. cbn [fst snd] in *. rewrite (H eq_refl). exact Hnd.
Qed.

(** C8, as the code has it.  [add_zone] does not look at the sign of the
    radius.  When a call returns, the zone it returns carries exactly the
    radius it was given and the row it appends that radius as the REAL
    column holds it; and the call would have returned for any other radius
    that is not NaN, a radius below zero included. *)
Theorem add_zone_stores_radius_as_given (db db' : DB) (now name : string)
    (cx cy cz radius : float) (zone_type : option string) (zone : Zone.t)
    (Hadd : add_zone db now name cx cy cz radius zone_type = (Ok zone, db')) :
  Zone.radius zone = radius
  /\ zones db' = zones db ++ [Sqlite.zone_row zone]
  /\ forall radius',
       Float.is_nan radius' = false ->
       exists zone' db'',
         add_zone db now name cx cy cz radius' zone_type = (Ok zone', db'')
         /\ Zone.radius zone' = radius'.
Proof.
  pose proof (add_zone_ok _ _ _ _ _ _ _ _ _ _ Hadd)
    as (Hbind & Hfresh & Hreal & -> & ->).
  split; [reflexivity|]. split; [reflexivity|].
  intros radius' Hradius'.
  destruct (add_zone_accepts db now name cx cy cz radius' zone_type)
    as (zone' & db'' & Hcall); [exact Hbind | exact Hfresh | |].
  - apply orb_false_iff in Hreal. destruct Hreal as [Hreal _].
    rewrite Hreal. exact Hradius'.
  - exists zone', db''. split; [exact Hcall|].
    apply add_zone_ok in Hcall. destruct Hcall as (_ & _ & _ & -> & _).
    reflexivity.
Qed.

Section Cases9.

#[local] Existing Instance rounded_libm.

Lemma add_zone_stores_radius_as_given_witness :
  Zone.radius pit = flt (-1)
  /\ zones pit_db = zones line_db ++ [Sqlite.zone_row pit]
  /\ exists zone' db'',
       add_zone line_db t0 "pit" (flt 0) (flt 0) (flt 0) (flt (-2)) None
       = (Ok zone', db'')
       /\ Zone.radius zone' = flt (-2).
Proof.
  destruct (add_zone_stores_radius_as_given line_db pit_db t0 "pit"
              (flt 0) (flt 0) (flt 0) (flt (-1)) None pit)
    as (Hradius & Hrows & Hany); [vm_compute; reflexivity|].
  split; [exact Hradius|]. split; [exact Hrows|].
  apply Hany. vm_compute. reflexivity.
Defined.

(** C8, as stated, fails: on the empty database [add_zone] succeeds with
    the radius [-1.0], and the zone it creates and stores has a radius
    below zero. *)
Lemma negative_radius_accepted :
  exists zone db',
    add_zone empty_db t0 "pit" (flt 0) (flt 0) (flt 0) (flt (-1)) None = (Ok zone, db')
    /\ In zone (zones db')
    /\ Float.ltb (Zone.radius zone) (flt 0) = true
    /\ Float.leb (flt 0) (Zone.radius zone) = false.
Proof.
  eexists. eexists. split; [vm_compute; reflexivity|].
  split; [left; reflexivity|]. split; vm_compute; reflexivity.
Qed.

End Cases9.

(** ** add_entity *)

Lemma max_rowid_upper (ids : list Z) (i : Z) : In i ids -> i <= Sqlite.max_rowid ids.
Proof.
  induction ids as [|j ids IH]; [contradiction|].
  change (Sqlite.max_rowid (j :: ids)) with (Z.max j (Sqlite.max_rowid ids)).
  intros [->|H]; [lia|]. specialize (IH H). lia.
Qed.

Section AddEntityFacts.

Variable dict : Type.
Variable empty_dict : dict.
Variable truthy : dict -> bool.
Variable json_dumps : dict -> result string.

(** What a call of [add_entity] that returns has checked and written. *)
Lemma add_entity_ok (db db' : DB) (now name : string) (x y z : float)
    (entity_type : option string) (metadata : option dict)
    (e : SpatialEntity.t) :
  add_entity dict empty_dict truthy json_dumps
    db now name x y z entity_type metadata = (Ok e, db') ->
  entity_texts_bind name entity_type = true
  /\ Float.is_nan x || Float.is_nan y || Float.is_nan z = false
  /\ json_dumps (or_empty dict empty_dict truthy metadata)
     = Ok (SpatialEntity.metadata e)
  /\ e = SpatialEntity.mk
           (Sqlite.next_rowid (entities_seq db)
              (map SpatialEntity.id (entities db)))
           name x y z
           match entity_type with Some t => t | None => "object" end
           (SpatialEntity.metadata e) now
  /\ db' = mkDB (zones db) (entities db ++ [Sqlite.entity_row e]) (zones_seq db)
             (SpatialEntity.id e).
Proof.
  unfold add_entity, Sqlite.insert_entity, Sqlite.bind_text, Sqlite.not_null,
    entity_texts_bind.
  destruct (json_dumps _) as [meta|]; [|discriminate].
  destruct (Sqlite.encodable name); [|discriminate]. cbn [bind andb].
  assert (Htype : Sqlite.encodable
                    match entity_type with Some t => t | None => "object" end
                  = match entity_type with
                    | Some t => Sqlite.encodable t
                    | None => true
                    end).
  { destruct entity_type; [reflexivity | exact default_entity_type_binds]. }
  rewrite Htype. clear Htype.
  destruct (match entity_type with Some t => Sqlite.encodable t | None => true end);
    [|discriminate]. cbn [bind].
  destruct (Float.is_nan x); [discriminate|].
  destruct (Float.is_nan y); [discriminate|].
  destruct (Float.is_nan z); [discriminate|]. cbn [bind].
  intros H. inversion H. cbn. auto 10.
Qed.

(** When [add_entity] returns: the metadata can be serialised, the texts
    can be bound and no coordinate is NaN. *)
Lemma add_entity_accepts (db : DB) (now name : string) (x y z : float)
    (entity_type : option string) (metadata : option dict) (meta : string) :
  json_dumps (or_empty dict empty_dict truthy metadata) = Ok meta ->
  entity_texts_bind name entity_type = true ->
  Float.is_nan x || Float.is_nan y || Float.is_nan z = false ->
  exists e db',
    add_entity dict empty_dict truthy json_dumps
      db now name x y z entity_type metadata = (Ok e, db')
    /\ SpatialEntity.metadata e = meta.
Proof.
  unfold add_entity, Sqlite.insert_entity, Sqlite.bind_text, Sqlite.not_null,
    entity_texts_bind.
  intros -> Hbind Hreal.
  destruct (Sqlite.encodable name); [|discriminate]. cbn [bind andb] in *.
  assert (Htype : Sqlite.encodable
                    match entity_type with Some t => t | None => "object" end
                  = true).
  { destruct entity_type; [exact Hbind | exact default_entity_type_binds]. }
  rewrite Htype. cbn [bind].
  destruct (Float.is_nan x); [discriminate|].
  destruct (Float.is_nan y); [discriminate|].
  destruct (Float.is_nan z); [discriminate|]. cbn [bind].
  eexists. eexists. split; reflexivity.
Qed.

Lemma add_entity_raise (db : DB) (now name : string) (x y z : float)
    (entity_type : option string) (metadata : option dict) (err : exn) :
  fst (add_entity dict empty_dict truthy json_dumps
         db now name x y z entity_type metadata) = Raise err ->
  snd (add_entity dict empty_dict truthy json_dumps
         db now name x y z entity_type metadata) = db.
Proof.
  unfold add_entity.
  destruct (json_dumps _) as [meta|]; [|reflexivity].
  destruct (Sqlite.insert_entity _ _ _ _ _ _ _ _) as [[rowid db']|];
    [discriminate | reflexivity].
Qed.

(** C9, as the code has it.  [add_entity] never looks at the stored names.
    When [json.dumps] can serialise the metadata, the name and the entity
    type can be bound and no coordinate is NaN, it succeeds, whether or not
    the name is already stored: the row it appends is the entity it
    returns, with an id above every stored id and the time of the call as
    [last_updated].  In every other case it raises and stores nothing; when
    [json.dumps] raises, what it raises is the exception of
    [json.dumps]. *)
Theorem add_entity_succeeds_without_name_check (db : DB) (now name : string)
    (x y z : float) (entity_type : option string) (metadata : option dict) :
  let call :=
    add_entity dict empty_dict truthy json_dumps
      db now name x y z entity_type metadata in
  let dumped := json_dumps (or_empty dict empty_dict truthy metadata) in
  let some_nan := Float.is_nan x || Float.is_nan y || Float.is_nan z in
  (forall meta,
      dumped = Ok meta ->
      entity_texts_bind name entity_type = true ->
      some_nan = false ->
      exists e db',
        call = (Ok e, db')
        /\ entities db' = entities db ++ [Sqlite.entity_row e]
        /\ zones db' = zones db
        /\ (forall e', In e' (entities db) ->
                       SpatialEntity.id e' < SpatialEntity.id e)
        /\ SpatialEntity.name e = name
        /\ SpatialEntity.metadata e = meta
        /\ SpatialEntity.last_updated e = now)
  /\ (forall err, dumped = Raise err -> call = (Raise err, db))
  /\ (forall meta,
        dumped = Ok meta ->
        entity_texts_bind name entity_type && negb some_nan = false ->
        exists err, call = (Raise err, db)).
Proof.
  cbv zeta. split; [|split].
  - intros meta Hjson Hbind Hreal.
    destruct (add_entity_accepts db now name x y z entity_type metadata meta
                Hjson Hbind Hreal) as (e & db' & Hcall & Hmeta).
    exists e, db'. split; [exact Hcall|].
    apply add_entity_ok in Hcall.
    destruct Hcall as (_ & _ & _ & He & ->). cbn [entities zones].
    split; [reflexivity|]. split; [reflexivity|].
    split; [|rewrite He; cbn; auto].
    intros e' He'. rewrite He. cbn [SpatialEntity.id].
    unfold Sqlite.next_rowid.
    pose proof (max_rowid_upper (map SpatialEntity.id (entities db))
                  (SpatialEntity.id e') (in_map _ _ _ He')).
    lia.
  - intros err Hjson. unfold add_entity. rewrite Hjson. reflexivity.
  - intros meta Hjson Hbad.
    destruct (add_entity dict empty_dict truthy json_dumps
                db now name x y z entity_type metadata) as [[e|err] db']
      eqn:Hcall.
    + apply add_entity_ok in Hcall. destruct Hcall as (Hbind & Hreal & _).
      rewrite Hbind, Hreal in Hbad. discriminate.
    + exists err.
      pose proof (add_entity_raise db now name x y z entity_type metadata err)
        as H.
      rewrite Hcall in H. cbn [fst snd] in H. rewrite (H eq_refl). reflexivity.
Qed.

End AddEntityFacts.

Section Cases10.

#[local] Existing Instance rounded_libm.

(** A second entity named [a] is registered in [line_db], which holds one
    already. *)
Lemma add_entity_succeeds_without_name_check_witness :
  exists e db',
    add_entity unit tt (fun _ => false) (fun _ => Ok "{}")
      line_db t0 "a" (flt 7) (flt 8) (flt 9) None None = (Ok e, db')
    /\ entities db' = entities line_db ++ [Sqlite.entity_row e]
    /\ zones db' = zones line_db
    /\ (forall e', In e' (entities line_db) ->
                   SpatialEntity.id e' < SpatialEntity.id e)
    /\ SpatialEntity.name e = "a"
    /\ SpatialEntity.metadata e = "{}"
    /\ SpatialEntity.last_updated e = t0.
Proof.
  destruct (add_entity_succeeds_without_name_check unit tt (fun _ => false)
              (fun _ => Ok "{}") line_db t0 "a" (flt 7) (flt 8) (flt 9) None None)
    as [Hsuccess _].
  apply (Hsuccess "{}").
  - reflexivity.
  - vm_compute. reflexivity.
  - vm_compute. reflexivity.
Defined.

Example second_a_gets_id_5 :
  fst (cli_add_entity line_db t0 "a" (flt 7) (flt 8) (flt 9))
  = Ok (SpatialEntity.mk 5 "a" (flt 7) (flt 8) (flt 9) "object" "{}" t0).
Proof. vm_compute. reflexivity. Qed.

(** C9, as stated, fails: metadata that holds a [set] is metadata
    [json.dumps] cannot serialise, and [add_entity] raises its [TypeError]
    on the empty database and stores nothing. *)
Lemma unserialisable_metadata_rejected :
  add_entity Json.dict [] Json.truthy Json.dumps
    empty_db t0 "probe" (flt 0) (flt 0) (flt 0) None
    (Some [("tags", Json.JSet)])
  = (Raise TypeError, empty_db).
Proof. vm_compute. reflexivity. Qed.

(** The JSON text of a dictionary, its quotation marks written as
    separators. *)
Example json_text_of_metadata :
  Json.dumps [("kind", Json.JStr "drone"); ("armed", Json.JBool false)]
  = Ok (String.concat (Json.char 34)
          ["{"; "kind"; ": "; "drone"; ", "; "armed"; ": false}"]).
Proof. vm_compute. reflexivity. Qed.

(** A name that cannot be bound and a NaN coordinate are rejected by the
    INSERT. *)
Example stray_name_rejected :
  cli_add_entity empty_db t0 stray_byte_name (flt 0) (flt 0) (flt 0)
  = (Raise UnicodeEncodeError, empty_db).
Proof. vm_compute. reflexivity. Qed.

Example nan_coordinate_rejected :
  cli_add_entity empty_db t0 "ghost" Float.nan (flt 0) (flt 0)
  = (Raise (IntegrityError (NotNull "entities.x")), empty_db).
Proof. vm_compute. reflexivity. Qed.

End Cases10.

(** ** export_data *)

Lemma read_all_map {A : Type} (read : pyval -> option A) (write : A -> pyval)
    (l : list A) :
  (forall a, read (write a) = Some a) ->
  read_all read (map write l) = Some l.
Proof.
  intros Hrw. induction l as [|a l IH]; [reflexivity|].
  cbn. rewrite Hrw. cbn. rewrite IH. reflexivity.
Qed.

Lemma zone_of_dict_asdict (r : Zone.t) : zone_of_dict (asdict_zone r) = Some r.
Proof. destruct r. reflexivity. Qed.

Lemma entity_of_dict_asdict (r : SpatialEntity.t) :
  entity_of_dict (asdict_entity r) = Some r.
Proof. destruct r. reflexivity. Qed.

(** C6. [export_data] lists under [zones] every zone row, whatever its
    activity flag, and under [entities] every entity row, each as the
    dictionary of its fields; reading the dictionaries back gives the zone
    rows and the entity rows of the database, in their order. *)
Theorem export_round_trip (db : DB) (now : string) :
  get_list "zones" (export_data db now) = Some (map asdict_zone (zones db))
  /\ get_list "entities" (export_data db now)
     = Some (map asdict_entity (entities db))
  /\ zones_of_export (export_data db now) = Some (zones db)
  /\ entities_of_export (export_data db now) = Some (entities db).
Proof.
  unfold zones_of_export, entities_of_export.
  change (get_list "zones" (export_data db now))
    with (Some (map asdict_zone (zones db))).
  change (get_list "entities" (export_data db now))
    with (Some (map asdict_entity (entities db))).
  cbn [obind]. repeat split.
  - apply read_all_map, zone_of_dict_asdict.
  - apply read_all_map, entity_of_dict_asdict.
Qed.

Section Cases11.

#[local] Existing Instance rounded_libm.

Example export_keeps_inactive_zone :
  zones_of_export (export_data (with_active (fun _ => 0) zone_A_db) t0)
  = Some [set_active 0 zone_A].
Proof. vm_compute. reflexivity. Qed.

End Cases11.

(** ** The Euclidean norm *)

(** C7.  The code does not do what the claim says at the points
    [(1e200, 0, 0)] and [(0, 0, 0)]: both have finite coordinates, and
    [distance_to] raises [OverflowError] on them, whatever [pow] of the C
    library returns within its laws. *)
Theorem distance_to_overflows_on_finite_points {L : Float.Libm} :
  finite_point far_point = true
  /\ finite_point origin = true
  /\ distance_to far_point origin = Raise OverflowError.
Proof.
  split; [vm_compute; reflexivity|]. split; [vm_compute; reflexivity|].
  rewrite distance_to_spec.
  replace (distance_overflows far_point origin) with true
    by (vm_compute; reflexivity).
  reflexivity.
Qed.

Section Cases12.

#[local] Existing Instance rounded_libm.

(** The product [x * x] of the same difference is [inf], with which the
    root would be [inf] as well. *)
Example product_of_far_difference :
  Float.mul (Float.sub (px far_point) (px origin))
            (Float.sub (px far_point) (px origin)) = Float.inf.
Proof. vm_compute. reflexivity. Qed.

Example distance_3_4_5 :
  distance_to (mkPoint3D (flt 3) (flt 4) (flt 0)) (mkPoint3D (flt 0) (flt 0) (flt 0))
  = Ok (flt 5).
Proof. vm_compute. reflexivity. Qed.

End Cases12.

(** * Further properties *)

(** ** The distance is symmetric *)

Lemma binary_round_aux_opp (m e : Z) (l : location) :
  binary_round_aux Float.prec Float.emax true m e l
  = SFopp (binary_round_aux Float.prec Float.emax false m e l).
Proof.
  unfold binary_round_aux.
  destruct (shr_fexp _ _ m e l) as [mrs' e'].
  destruct (shr_fexp _ _ _ e' loc_Exact) as [mrs'' e''].
  destruct (shr_m mrs''); cbn; try reflexivity.
  destruct (Z.leb _ _); reflexivity.
Qed.

Lemma binary_normalize_opp (n e : Z) :
  SFabs (binary_normalize Float.prec Float.emax (- n) e false)
  = SFabs (binary_normalize Float.prec Float.emax n e false).
Proof.
  destruct n as [|m|m]; cbn [Z.opp binary_normalize]; try reflexivity;
    unfold binary_round; destruct (shl_align _ _ _) as [mz ez];
    rewrite binary_round_aux_opp;
    destruct (binary_round_aux _ _ false _ _ _); reflexivity.
Qed.

Lemma pow2_abs {L : Float.Libm} (v w : float) : SFabs v = SFabs w -> Float.pow2 v = Float.pow2 w.
Proof.
  destruct v as [sv|sv| |sv mv ev], w as [sw|sw| |sw mw ew];
    cbn [SFabs]; intros H; try discriminate H; try reflexivity.
  injection H as -> ->. reflexivity.
Qed.

Lemma sub_swap_abs (v w : float) : SFabs (Float.sub v w) = SFabs (Float.sub w v).
Proof.
  destruct v as [sv|sv| |sv mv ev], w as [sw|sw| |sw mw ew];
    try (destruct sv, sw; reflexivity); try reflexivity.
  cbn [Float.sub SFsub]. unfold Float.sub. cbn [SFsub].
  rewrite (Z.min_comm ew ev).
  rewrite <- binary_normalize_opp. f_equal. f_equal. lia.
Qed.

Lemma distance_to_swap {L : Float.Libm} (a b : Point3D) : distance_to a b = distance_to b a.
Proof.
  unfold distance_to.
  rewrite (pow2_abs _ _ (sub_swap_abs (px a) (px b))).
  rewrite (pow2_abs _ _ (sub_swap_abs (py a) (py b))).
  rewrite (pow2_abs _ _ (sub_swap_abs (pz a) (pz b))).
  reflexivity.
Qed.

(** X1. The distance does not depend on the order of the two points: the
    calls [a.distance_to(b)] and [b.distance_to(a)] return the same float or
    raise the same exception. *)
Theorem distance_to_symmetric {L : Float.Libm} (a b : Point3D) :
  distance_to a b = distance_to b a.
Proof.
  unfold distance_to.
  rewrite (pow2_abs _ _ (sub_swap_abs (px a) (px b))).
  rewrite (pow2_abs _ _ (sub_swap_abs (py a) (py b))).
  rewrite (pow2_abs _ _ (sub_swap_abs (pz a) (pz b))).
  reflexivity.
Qed.

(** ** The distance is not negative, and not NaN between finite points *)

Lemma binary_normalize_not_nan (n e : Z) :
  Float.is_nan (binary_normalize Float.prec Float.emax n e false) = false.
Proof.
  destruct n as [|m|m]; cbn [binary_normalize]; try reflexivity;
    unfold binary_round; destruct (shl_align _ _ _) as [mz ez];
    apply binary_round_aux_not_nan; lia.
Qed.

Lemma sub_finite_not_nan (v w : float) :
  Float.is_finite v = true -> Float.is_finite w = true ->
  Float.is_nan (Float.sub v w) = false.
Proof.
  destruct v as [sv|sv| |sv mv ev], w as [sw|sw| |sw mw ew];
    try discriminate; intros _ _;
    try (destruct sv, sw; reflexivity); try reflexivity.
  apply binary_normalize_not_nan.
Qed.

Lemma square_not_nan {L : Float.Libm} (v : float) :
  Float.is_nan v = false -> Float.is_nan (squared v) = false.
Proof.
  destruct v as [s|s| |s m e]; try discriminate; intros _; try reflexivity.
  cbn [squared].
  destruct (Float.eqb _ _); [reflexivity|].
  apply Float.c_pow2_not_nan. reflexivity.
Qed.

Lemma add_clear_not_nan (a b : float) :
  sign_clear a -> sign_clear b ->
  Float.is_nan a = false -> Float.is_nan b = false ->
  Float.is_nan (Float.add a b) = false.
Proof.
  destruct a as [sa|sa| |sa ma ea], b as [sb|sb| |sb mb eb]; cbn;
    intros Ha Hb; subst; try discriminate; intros _ _; try reflexivity.
  apply binary_normalize_not_nan.
Qed.

Lemma SFsqrt_sign_clear (v : float) :
  sign_clear v -> sign_clear (SFsqrt Float.prec Float.emax v).
Proof.
  destruct v as [s|s| |s m e]; intros H; cbn [sign_clear] in H; subst;
    try exact I; try reflexivity.
  cbn [SFsqrt].
  destruct (SFsqrt_core_binary _ _ _ _) as [[mz ez] lz].
  apply binary_round_aux_sign_clear.
Qed.

Lemma SFsqrt_not_nan (v : float) :
  sign_clear v -> Float.is_nan v = false ->
  Float.is_nan (SFsqrt Float.prec Float.emax v) = false.
Proof.
  destruct v as [s|s| |s m e]; intros H; cbn [sign_clear] in H; subst;
    try discriminate; intros _; try reflexivity.
  cbn [SFsqrt]. unfold SFsqrt_core_binary.
  match goal with
  | |- context [Z.sqrtrem ?n] =>
      pose proof (Z.sqrtrem_sqrt n) as Hs;
      pose proof (Z.sqrt_nonneg n) as Hq;
      destruct (Z.sqrtrem n) as [q r]
  end.
  cbn [fst] in Hs. subst q.
  apply binary_round_aux_not_nan. exact Hq.
Qed.

Lemma sign_clear_not_below_zero (d : float) :
  sign_clear d -> Float.ltb d Float.zero = false.
Proof.
  destruct d as [s|s| |s m e]; cbn; intros H; subst; reflexivity.
Qed.

Lemma sign_clear_leb_zero (d : float) :
  sign_clear d -> Float.is_nan d = false -> Float.leb Float.zero d = true.
Proof.
  destruct d as [s|s| |s m e]; cbn; intros H; subst; try discriminate;
    reflexivity.
Qed.

Lemma euclidean_norm_sign_clear {L : Float.Libm} (a b : Point3D) : sign_clear (euclidean_norm a b).
Proof.
  apply SFsqrt_sign_clear.
  repeat apply add_sign_clear; apply square_sign_clear.
Qed.

Lemma euclidean_norm_not_nan {L : Float.Libm} (a b : Point3D) :
  finite_point a = true -> finite_point b = true ->
  Float.is_nan (euclidean_norm a b) = false.
Proof.
  unfold finite_point. intros Ha Hb.
  apply andb_prop in Ha. destruct Ha as [Ha Haz].
  apply andb_prop in Ha. destruct Ha as [Hax Hay].
  apply andb_prop in Hb. destruct Hb as [Hb Hbz].
  apply andb_prop in Hb. destruct Hb as [Hbx Hby].
  apply SFsqrt_not_nan.
  - repeat apply add_sign_clear; apply square_sign_clear.
  - repeat apply add_clear_not_nan;
      try (repeat apply add_sign_clear); try apply square_sign_clear;
      apply square_not_nan, sub_finite_not_nan; assumption.
Qed.

Lemma distance_to_sign_clear {L : Float.Libm} (a b : Point3D) (d : float) :
  distance_to a b = Ok d -> sign_clear d.
Proof.
  rewrite distance_to_spec. destruct (distance_overflows a b); [discriminate|].
  intros H. inversion H. apply euclidean_norm_sign_clear.
Qed.

(** X2. A distance that [distance_to] returns is never below zero, and
    between two points with finite coordinates it is not NaN either: it is
    a float from [0.0] to [inf]. *)
Theorem distance_to_not_negative {L : Float.Libm} (a b : Point3D) (d : float)
    (Hd : distance_to a b = Ok d) :
  Float.ltb d Float.zero = false
  /\ (finite_point a = true -> finite_point b = true ->
      Float.is_nan d = false /\ Float.leb Float.zero d = true).
Proof.
  pose proof (distance_to_sign_clear a b d Hd) as Hclear.
  split; [apply sign_clear_not_below_zero, Hclear|].
  intros Ha Hb.
  assert (Hnan : Float.is_nan d = false).
  { rewrite distance_to_spec in Hd.
    destruct (distance_overflows a b); [discriminate|].
    inversion Hd. apply euclidean_norm_not_nan; assumption. }
  split; [exact Hnan | apply sign_clear_leb_zero; assumption].
Qed.

Section Cases13.

#[local] Existing Instance rounded_libm.

Lemma distance_to_not_negative_witness :
  Float.ltb (flt 5) Float.zero = false
  /\ (finite_point (mkPoint3D (flt 3) (flt 4) (flt 0)) = true ->
      finite_point (mkPoint3D (flt 0) (flt 0) (flt 0)) = true ->
      Float.is_nan (flt 5) = false /\ Float.leb Float.zero (flt 5) = true).
Proof.
  apply (distance_to_not_negative (mkPoint3D (flt 3) (flt 4) (flt 0))
           (mkPoint3D (flt 0) (flt 0) (flt 0))).
  vm_compute. reflexivity.
Defined.

End Cases13.

(** ** The one way to fail *)

(** X18. [distance_to] fails in one way only.  It raises [OverflowError]
    when the square of a finite coordinate difference is out of range, as
    the rounded product tells, and returns a float in every other case:
    the [ValueError] of [math.sqrt] is out of reach, since the sum of the
    squares is never below zero. *)
Theorem distance_to_fails_only_by_overflow {L : Float.Libm} (a b : Point3D) :
  (distance_overflows a b = true -> distance_to a b = Raise OverflowError)
  /\ (distance_overflows a b = false -> exists d, distance_to a b = Ok d).
Proof.
  rewrite distance_to_spec.
  destruct (distance_overflows a b); split; intros H;
    try discriminate H; eauto.
Qed.

Section Cases14.

#[local] Existing Instance rounded_libm.

Lemma distance_to_fails_only_by_overflow_witness :
  exists d,
    distance_to (mkPoint3D (flt 3) (flt 4) (flt 0)) origin = Ok d.
Proof.
  apply (distance_to_fails_only_by_overflow
           (mkPoint3D (flt 3) (flt 4) (flt 0)) origin).
  vm_compute. reflexivity.
Defined.

End Cases14.

(** ** What a scan returns *)

Lemma scan_first_raise (f : probe) (todo : list SpatialEntity.t)
    (results : list hit) :
  scan f todo results
  = match first_raise f todo with
    | Some x => Raise x
    | None => Ok (results ++ hits_of f todo)
    end.
Proof.
  revert results.
  induction todo as [|e todo IH]; intros results; cbn.
  - now rewrite app_nil_r.
  - destruct (f e) as [[d|]|x]; cbn; [| |reflexivity].
    + rewrite IH. destruct (first_raise f todo); [reflexivity|].
      now rewrite <- app_assoc.
    + apply IH.
Qed.

Lemma first_raise_ext (f g : probe) (todo : list SpatialEntity.t) :
  (forall e, In e todo ->
     match f e, g e with
     | Raise x, Raise y => x = y
     | Ok _, Ok _ => True
     | _, _ => False
     end) ->
  first_raise f todo = first_raise g todo.
Proof.
  induction todo as [|e todo IH]; intros H; [reflexivity|].
  cbn. pose proof (H e (or_introl eq_refl)) as He.
  destruct (f e), (g e); try contradiction.
  - apply IH. intros e' He'. apply H. now right.
  - now subst.
Qed.

Lemma hits_of_fst (f : probe) (es : list SpatialEntity.t) :
  map fst (hits_of f es)
  = filter (fun e => match f e with Ok (Some _) => true | _ => false end) es.
Proof.
  induction es as [|e es IH]; [reflexivity|].
  cbn [hits_of flat_map filter]. rewrite map_app. fold (hits_of f es).
  rewrite IH. destruct (f e) as [[d|]|]; reflexivity.
Qed.

Lemma zone_probe_within {L : Float.Libm} (zone : Zone.t) (e : SpatialEntity.t) :
  match zone_probe zone e with Ok (Some _) => true | _ => false end
  = within (Zone.center zone) (Zone.radius zone) e.
Proof.
  unfold zone_probe, within.
  destruct (distance_to _ _) as [d|]; cbn; [|reflexivity].
  destruct (Float.leb d (Zone.radius zone)); reflexivity.
Qed.

Lemma near_probe_within {L : Float.Libm} (target : SpatialEntity.t) (threshold : float)
    (e : SpatialEntity.t) :
  match near_probe target threshold e with Ok (Some _) => true | _ => false end
  = negb (Z.eqb (SpatialEntity.id e) (SpatialEntity.id target))
    && within (SpatialEntity.position target) threshold e.
Proof.
  unfold near_probe, within.
  destruct (Z.eqb _ _); cbn; [reflexivity|].
  destruct (distance_to _ _) as [d|]; cbn; [|reflexivity].
  destruct (Float.leb d threshold); reflexivity.
Qed.

(** ** Every qualifying row, once *)

(** X3. The entities of a list either query returns are the stored rows
    that pass the test of the loop, each as often as it is stored and none
    else: for a zone, the rows within the radius of the centre; for a
    target, the rows with another id within the threshold of the target. *)
Theorem query_results_are_the_qualifying_rows {L : Float.Libm} (db : DB) :
  (forall zone_name zone res,
      Sqlite.zone_by_name db zone_name = Ok (Some zone) ->
      find_entities_in_zone db zone_name = Ok res ->
      Permutation (map fst res)
        (filter (within (Zone.center zone) (Zone.radius zone))
           (list_entities db)))
  /\ (forall entity_name threshold target res,
        Sqlite.entity_by_name db entity_name = Ok (Some target) ->
        proximity_check db entity_name threshold = Ok res ->
        Permutation (map fst res)
          (filter (fun e =>
                     negb (Z.eqb (SpatialEntity.id e) (SpatialEntity.id target))
                     && within (SpatialEntity.position target) threshold e)
             (list_entities db))).
Proof.
  split.
  - intros zone_name zone res Hzone. unfold find_entities_in_zone.
    rewrite Hzone. cbn [bind]. rewrite zone_scan_is_scan.
    destruct (scan _ _ _) as [hits|] eqn:Hscan; cbn; [|discriminate].
    intros H. inversion H; subst res. clear H.
    apply scan_ok in Hscan. cbn in Hscan. subst hits.
    destruct (sorted_spec snd _ (hits_of_key_ok _ (list_entities db)
                                   (zone_probe_not_nan zone)))
      as (_ & Hperm & _).
    rewrite (Permutation_map fst Hperm), hits_of_fst.
    rewrite (filter_ext _ _ (zone_probe_within zone)). reflexivity.
  - intros entity_name threshold target res Htarget. unfold proximity_check.
    rewrite Htarget. cbn [bind]. rewrite proximity_scan_is_scan.
    destruct (scan _ _ _) as [hits|] eqn:Hscan; cbn; [|discriminate].
    intros H. inversion H; subst res. clear H.
    apply scan_ok in Hscan. cbn in Hscan. subst hits.
    destruct (sorted_spec snd _ (hits_of_key_ok _ (list_entities db)
                                   (near_probe_not_nan target threshold)))
      as (_ & Hperm & _).
    rewrite (Permutation_map fst Hperm), hits_of_fst.
    rewrite (filter_ext _ _ (near_probe_within target threshold)). reflexivity.
Qed.

Section Cases15.

#[local] Existing Instance rounded_libm.

Lemma query_results_are_the_qualifying_rows_witness :
  Permutation
    (map fst [(ent 1 "a" 0, flt 0); (ent 4 "twin" 0, flt 0);
              (ent 2 "b" 1, flt 1); (ent 3 "c" 2, flt 2)])
    (filter (within (Zone.center zone_A) (Zone.radius zone_A))
       (list_entities line_db))
  /\ Permutation
       (map fst [(ent 2 "b" 1, flt 1); (ent 1 "a" 0, flt 2);
                 (ent 4 "twin" 0, flt 2)])
       (filter (fun e =>
                  negb (Z.eqb (SpatialEntity.id e)
                          (SpatialEntity.id (ent 3 "c" 2)))
                  && within (SpatialEntity.position (ent 3 "c" 2)) (flt 5) e)
          (list_entities line_db)).
Proof.
  destruct (query_results_are_the_qualifying_rows line_db) as [Hzone Hnear].
  split.
  - apply (Hzone "A"); vm_compute; reflexivity.
  - apply (Hnear "c"); vm_compute; reflexivity.
Defined.

End Cases15.

(** ** proximity_check, entry by entry *)

Lemma near_probe_raise {L : Float.Libm} (target : SpatialEntity.t) (threshold : float)
    (e : SpatialEntity.t) (y : exn) :
  near_probe target threshold e = Raise y
  <-> y = OverflowError
      /\ Z.eqb (SpatialEntity.id e) (SpatialEntity.id target) = false
      /\ distance_overflows (SpatialEntity.position e)
           (SpatialEntity.position target) = true.
Proof.
  unfold near_probe. destruct (Z.eqb _ _).
  { split; [discriminate | intros (_ & H & _); discriminate]. }
  rewrite distance_to_spec.
  destruct (distance_overflows _ _); cbn; split.
  - intros H. inversion H. auto.
  - intros (-> & _). reflexivity.
  - discriminate.
  - intros (_ & _ & H). discriminate.
Qed.

(** X4. [proximity_check] measures every stored entity but those with the
    id of the target.  When none of them is so far from the target that the
    square of a coordinate difference is out of range, the call returns a
    list, and [E] appears in it paired with [d] exactly when [E] is a stored
    entity with another id, [d] is its distance to the target and
    [d <= threshold].  When one of them is that far, the call raises
    [OverflowError]. *)
Theorem proximity_membership_iff_within_threshold {L : Float.Libm} (db : DB)
    (entity_name : string) (threshold : float) (target : SpatialEntity.t)
    (Htarget : Sqlite.entity_by_name db entity_name = Ok (Some target)) :
  let in_range e :=
    Z.eqb (SpatialEntity.id e) (SpatialEntity.id target)
    || negb (distance_overflows (SpatialEntity.position e)
               (SpatialEntity.position target)) in
  (forallb in_range (list_entities db) = true ->
   exists res,
     proximity_check db entity_name threshold = Ok res
     /\ forall e d,
          In (e, d) res
          <-> In e (list_entities db)
              /\ SpatialEntity.id e <> SpatialEntity.id target
              /\ distance_to (SpatialEntity.position e)
                   (SpatialEntity.position target) = Ok d
              /\ Float.leb d threshold = true)
  /\ (forallb in_range (list_entities db) = false ->
      proximity_check db entity_name threshold = Raise OverflowError).
Proof.
  intros in_range. unfold proximity_check.
  rewrite Htarget. cbn [bind]. rewrite proximity_scan_is_scan.
  split; intros Hrange.
  - assert (Htotal : scan (near_probe target threshold) (list_entities db) []
                     = Ok ([] ++ hits_of (near_probe target threshold)
                                   (list_entities db))).
    { apply scan_total. apply Forall_forall. intros e He.
      rewrite forallb_forall in Hrange. specialize (Hrange e He).
      unfold in_range in Hrange. unfold near_probe.
      destruct (Z.eqb _ _); [eauto|].
      rewrite distance_to_spec. cbn in Hrange.
      apply negb_true_iff in Hrange. rewrite Hrange. cbn. eauto. }
    rewrite Htotal. cbn [bind app]. eexists. split; [reflexivity|].
    intros e d.
    destruct (sorted_scan_spec _ _ _ (near_probe_not_nan target threshold) Htotal)
      as (_ & Hin & _).
    cbn [app] in Hin. rewrite Hin, near_probe_some. reflexivity.
  - rewrite (scan_raise (near_probe target threshold) OverflowError);
      [reflexivity | |].
    + intros e y H. apply near_probe_raise in H. exact (proj1 H).
    + destruct (forallb_false _ _ Hrange) as (e & He & Hfar).
      exists e. split; [exact He|]. unfold in_range in Hfar.
      apply orb_false_iff in Hfar. destruct Hfar as [Hid Hfar].
      apply near_probe_raise. split; [reflexivity|]. split; [exact Hid|].
      apply negb_false_iff. exact Hfar.
Qed.

Section Cases16.

#[local] Existing Instance rounded_libm.

(** Around [p1] the call returns in [zone_A_db] and raises in [far_db],
    where [far] is stored too. *)
Lemma proximity_membership_iff_within_threshold_witness :
  proximity_check far_db "p1" (flt 50) = Raise OverflowError
  /\ exists res,
       proximity_check zone_A_db "p1" (flt 50) = Ok res
       /\ forall e d,
            In (e, d) res
            <-> In e (list_entities zone_A_db)
                /\ SpatialEntity.id e <> SpatialEntity.id p1
                /\ distance_to (SpatialEntity.position e)
                     (SpatialEntity.position p1) = Ok d
                /\ Float.leb d (flt 50) = true.
Proof.
  split.
  - destruct (proximity_membership_iff_within_threshold far_db "p1" (flt 50) p1)
      as [_ Hraise]; [vm_compute; reflexivity|].
    apply Hraise. vm_compute. reflexivity.
  - destruct (proximity_membership_iff_within_threshold zone_A_db "p1" (flt 50) p1)
      as [Hin _]; [vm_compute; reflexivity|].
    apply Hin. vm_compute. reflexivity.
Defined.

End Cases16.

(** ** Bounds that nothing meets *)

Lemma leb_below_zero_empty (d bound : float) :
  sign_clear d -> Float.leb Float.zero bound = false ->
  Float.leb d bound = false.
Proof.
  intros Hd Hb. destruct (Float.leb d bound) eqn:Hle; [|reflexivity].
  destruct (FloatOrder.leb_not_nan _ _ Hle) as [Hnan _].
  rewrite <- Hb. symmetry.
  apply (FloatOrder.leb_trans _ d); [apply sign_clear_leb_zero; assumption|].
  exact Hle.
Qed.

Lemma hits_of_none (f : probe) (es : list SpatialEntity.t) :
  (forall e d, f e <> Ok (Some d)) -> hits_of f es = [].
Proof.
  intros Hf. induction es as [|e es IH]; [reflexivity|].
  cbn [hits_of flat_map]. fold (hits_of f es). rewrite IH.
  destruct (f e) as [[d|]|] eqn:He; try reflexivity.
  exfalso. exact (Hf e d He).
Qed.

(** X5. A zone whose radius is below zero (or NaN) holds no entity, and a
    threshold below zero (or NaN) is met by none: whenever the query
    returns, it returns the empty list. *)
Theorem negative_bound_matches_nothing {L : Float.Libm} (db : DB) :
  (forall zone_name zone res,
      Sqlite.zone_by_name db zone_name = Ok (Some zone) ->
      Float.leb Float.zero (Zone.radius zone) = false ->
      find_entities_in_zone db zone_name = Ok res ->
      res = [])
  /\ (forall entity_name threshold res,
        Float.leb Float.zero threshold = false ->
        proximity_check db entity_name threshold = Ok res ->
        res = []).
Proof.
  split.
  - intros zone_name zone res Hzone Hneg. unfold find_entities_in_zone.
    rewrite Hzone. cbn [bind]. rewrite zone_scan_is_scan.
    destruct (scan _ _ _) as [hits|] eqn:Hscan; cbn; [|discriminate].
    intros H. inversion H; subst res.
    apply scan_ok in Hscan. rewrite Hscan, hits_of_none; [reflexivity|].
    intros e d He. apply zone_probe_some in He. destruct He as [Hd Hle].
    rewrite (leb_below_zero_empty d _ (distance_to_sign_clear _ _ _ Hd) Hneg) in Hle.
    discriminate.
  - intros entity_name threshold res Hneg. unfold proximity_check.
    destruct (Sqlite.entity_by_name db entity_name) as [[target|]|];
      cbn [bind]; [|intros H; now inversion H|discriminate].
    rewrite proximity_scan_is_scan.
    destruct (scan _ _ _) as [hits|] eqn:Hscan; cbn; [|discriminate].
    intros H. inversion H; subst res.
    apply scan_ok in Hscan. rewrite Hscan, hits_of_none; [reflexivity|].
    intros e d He. apply near_probe_some in He. destruct He as (_ & Hd & Hle).
    rewrite (leb_below_zero_empty d _ (distance_to_sign_clear _ _ _ Hd) Hneg) in Hle.
    discriminate.
Qed.

Section Cases17.

#[local] Existing Instance rounded_libm.

(** The zone [pit] of radius [-1.0] around [a], [b], [c] and [twin] is
    empty, and so is the neighbourhood of [a] under the threshold [-1.0]. *)
Lemma negative_bound_matches_nothing_witness :
  find_entities_in_zone pit_db "pit" = Ok []
  /\ proximity_check pit_db "a" (flt (-1)) = Ok [].
Proof.
  destruct (negative_bound_matches_nothing pit_db) as [Hzone Hnear].
  assert (H1 : exists res, find_entities_in_zone pit_db "pit" = Ok res)
    by (eexists; vm_compute; reflexivity).
  assert (H2 : exists res, proximity_check pit_db "a" (flt (-1)) = Ok res)
    by (eexists; vm_compute; reflexivity).
  destruct H1 as [res1 H1]. destruct H2 as [res2 H2].
  rewrite H1, H2. split; f_equal.
  - apply (Hzone "pit" (Zone.mk 2 "pit" (flt 0) (flt 0) (flt 0) (flt (-1))
                          "generic" t0 1) res1);
      [vm_compute; reflexivity | vm_compute; reflexivity | exact H1].
  - apply (Hnear "a" (flt (-1)) res2); [vm_compute; reflexivity | exact H2].
Defined.

End Cases17.

(** ** Sorting and filtering *)

Section SortedFilter.

Context {A : Type}.
Variable key : A -> float.
Variable keep : A -> bool.

Lemma insort_below_all (pivot : A) (run : list A) :
  Forall (fun a => Float.ltb (key pivot) (key a) = true) run ->
  insort key pivot run = pivot :: run.
Proof.
  intros H. destruct H as [|a run Ha _]; [reflexivity|].
  cbn. now rewrite Ha.
Qed.

Lemma insort_filter (pivot : A) (run : list A) :
  StronglySorted (key_le key) run ->
  filter keep (insort key pivot run)
  = if keep pivot then insort key pivot (filter keep run) else filter keep run.
Proof.
  intros Hs. induction Hs as [|p run Hs IH Hall].
  - cbn. destruct (keep pivot); reflexivity.
  - cbn [insort]. destruct (Float.ltb (key pivot) (key p)) eqn:Hlt.
    + cbn [filter]. destruct (keep pivot); [|reflexivity].
      symmetry. apply (insort_below_all pivot (filter keep (p :: run))).
      apply Forall_forall. intros a Ha. apply filter_In in Ha.
      destruct Ha as [[<-|Ha] _]; [exact Hlt|].
      rewrite Forall_forall in Hall.
      exact (FloatOrder.ltb_leb_trans _ _ _ Hlt (Hall a Ha)).
    + cbn [filter]. rewrite IH.
      destruct (keep p), (keep pivot); cbn [insort]; rewrite ?Hlt; reflexivity.
Qed.

Lemma sorted_from_filter (l run : list A) :
  Forall (key_ok key) l -> Forall (key_ok key) run ->
  StronglySorted (key_le key) run ->
  filter keep (fold_left (fun run pivot => insort key pivot run) l run)
  = fold_left (fun run pivot => insort key pivot run)
      (filter keep l) (filter keep run).
Proof.
  revert run. induction l as [|a l IH]; intros run Hl Hrun Hs; [reflexivity|].
  inversion Hl as [|? ? Ha Hl']; subst. cbn [fold_left filter].
  rewrite IH.
  - rewrite insort_filter by exact Hs. destruct (keep a); reflexivity.
  - exact Hl'.
  - eapply Permutation_Forall; [symmetry; apply insort_perm|].
    constructor; assumption.
  - apply insort_sorted; assumption.
Qed.

(** Filtering a sorted list is sorting the filtered list. *)
Lemma sorted_filter (l : list A) :
  Forall (key_ok key) l ->
  filter keep (sorted key l) = sorted key (filter keep l).
Proof.
  intros Hl. unfold sorted.
  rewrite sorted_from_filter; [reflexivity | exact Hl | constructor | constructor].
Qed.

End SortedFilter.

Lemma hits_of_filter (f g : probe) (keep : hit -> bool)
    (es : list SpatialEntity.t) :
  (forall e,
     match g e with Ok (Some d) => if keep (e, d) then [(e, d)] else [] | _ => [] end
     = match f e with Ok (Some d) => [(e, d)] | _ => [] end) ->
  hits_of f es = filter keep (hits_of g es).
Proof.
  intros H. induction es as [|e es IH]; [reflexivity|].
  change (hits_of f (e :: es))
    with (match f e with Ok (Some d) => [(e, d)] | _ => [] end ++ hits_of f es).
  change (hits_of g (e :: es))
    with (match g e with Ok (Some d) => [(e, d)] | _ => [] end ++ hits_of g es).
  rewrite filter_app, IH, <- (H e). f_equal.
  destruct (g e) as [[d|]|]; reflexivity.
Qed.

(** ** A smaller threshold *)

(** X6. Lowering the threshold only removes entries: for [t1 <= t2] the
    call with [t1] raises when the call with [t2] raises and otherwise
    returns the entries of the list for [t2] whose distance is at most
    [t1], in the same order. *)
Theorem smaller_threshold_keeps_closer_entries {L : Float.Libm} (db : DB) (entity_name : string)
    (t1 t2 : float) (Hle : Float.leb t1 t2 = true) :
  proximity_check db entity_name t1
  = (res <- proximity_check db entity_name t2 ;;
     Ok (filter (fun h => Float.leb (snd h) t1) res)).
Proof.
  unfold proximity_check.
  destruct (Sqlite.entity_by_name db entity_name) as [[target|]|];
    cbn [bind]; [|reflexivity|reflexivity].
  rewrite !proximity_scan_is_scan, !scan_first_raise.
  assert (Hraise : first_raise (near_probe target t1) (list_entities db)
                   = first_raise (near_probe target t2) (list_entities db)).
  { apply first_raise_ext. intros e _. unfold near_probe.
    destruct (Z.eqb _ _); [exact I|].
    destruct (distance_to _ _) as [d|x]; cbn; [exact I | reflexivity]. }
  rewrite Hraise. clear Hraise.
  destruct (first_raise _ _); [reflexivity|]. cbn [bind app]. f_equal.
  rewrite (sorted_filter snd)
    by (apply hits_of_key_ok, near_probe_not_nan).
  f_equal. apply hits_of_filter. intros e. unfold near_probe.
  destruct (Z.eqb _ _); [reflexivity|].
  destruct (distance_to _ _) as [d|x]; cbn; [|reflexivity].
  destruct (Float.leb d t1) eqn:H1.
  - rewrite (FloatOrder.leb_trans _ _ _ H1 Hle). cbn. now rewrite H1.
  - destruct (Float.leb d t2); [cbn; now rewrite H1 | reflexivity].
Qed.

Section Cases18.

#[local] Existing Instance rounded_libm.

Lemma smaller_threshold_keeps_closer_entries_witness :
  proximity_check line_db "c" one_and_a_half
  = (res <- proximity_check line_db "c" (flt 5) ;;
     Ok (filter (fun h => Float.leb (snd h) one_and_a_half) res)).
Proof.
  apply (smaller_threshold_keeps_closer_entries line_db "c").
  vm_compute. reflexivity.
Defined.

End Cases18.

(** ** A zone around an entity *)

Lemma square_overflows_sub_diag (v : float) :
  square_overflows (Float.sub v v) = false.
Proof.
  destruct v as [[]|[]| |s m e]; try reflexivity.
  unfold Float.sub. cbn [SFsub]. rewrite Z.sub_diag. reflexivity.
Qed.

Lemma distance_overflows_diag (p : Point3D) : distance_overflows p p = false.
Proof.
  unfold distance_overflows. now rewrite !square_overflows_sub_diag.
Qed.

Lemma same_id_same_row (es : list SpatialEntity.t) (e t : SpatialEntity.t) :
  NoDup (map SpatialEntity.id es) -> In e es -> In t es ->
  SpatialEntity.id e = SpatialEntity.id t -> e = t.
Proof.
  induction es as [|r es IH]; cbn; intros Hnd He Ht Hid; [contradiction|].
  inversion Hnd as [|? ? Hfresh Hnd']; subst.
  destruct He as [->|He], Ht as [->|Ht]; auto.
  - exfalso. apply Hfresh. rewrite Hid. now apply in_map.
  - exfalso. apply Hfresh. rewrite <- Hid. now apply in_map.
Qed.

(** X7. Let a zone be centred on a stored entity, the ids of the stored
    entities being distinct.  Then [proximity_check] for that entity, with
    the radius of the zone as threshold, is [find_entities_in_zone] for the
    zone without the entries that carry the id of the entity: the two calls
    raise together, and otherwise list the same entries in the same
    order. *)
Theorem proximity_is_zone_query_without_target {L : Float.Libm} (db : DB)
    (zone_name entity_name : string) (zone : Zone.t) (target : SpatialEntity.t)
    (Hzone : Sqlite.zone_by_name db zone_name = Ok (Some zone))
    (Htarget : Sqlite.entity_by_name db entity_name = Ok (Some target))
    (Hcentre : Zone.center zone = SpatialEntity.position target)
    (Hids : NoDup (map SpatialEntity.id (entities db))) :
  proximity_check db entity_name (Zone.radius zone)
  = (res <- find_entities_in_zone db zone_name ;;
     Ok (filter (fun h => negb (Z.eqb (SpatialEntity.id (fst h))
                                      (SpatialEntity.id target))) res)).
Proof.
  unfold proximity_check, find_entities_in_zone.
  rewrite Hzone, Htarget. cbn [bind].
  rewrite proximity_scan_is_scan, zone_scan_is_scan.
  rewrite !scan_first_raise.
  assert (Hin : In target (list_entities db))
    by exact (proj1 (entity_by_name_in _ _ _ Htarget)).
  assert (Hraise : first_raise (near_probe target (Zone.radius zone))
                     (list_entities db)
                   = first_raise (zone_probe zone) (list_entities db)).
  { apply first_raise_ext. intros e He. unfold near_probe, zone_probe.
    rewrite Hcentre.
    destruct (Z.eqb_spec (SpatialEntity.id e) (SpatialEntity.id target)) as [Hid|_].
    - rewrite (same_id_same_row _ e target Hids He Hin Hid).
      rewrite distance_to_spec, distance_overflows_diag. exact I.
    - destruct (distance_to _ _); cbn; [exact I | reflexivity]. }
  rewrite Hraise. clear Hraise.
  destruct (first_raise _ _); [reflexivity|]. cbn [bind app]. f_equal.
  rewrite (sorted_filter snd) by (apply hits_of_key_ok, zone_probe_not_nan).
  f_equal. apply hits_of_filter. intros e. unfold near_probe, zone_probe.
  rewrite Hcentre. cbn [fst].
  destruct (Z.eqb (SpatialEntity.id e) (SpatialEntity.id target)).
  - destruct (distance_to _ _) as [d|]; cbn; [|reflexivity].
    destruct (Float.leb d (Zone.radius zone)); reflexivity.
  - destruct (distance_to _ _) as [d|]; cbn; [|reflexivity].
    destruct (Float.leb d (Zone.radius zone)); reflexivity.
Qed.

Section Cases19.

#[local] Existing Instance rounded_libm.

(** Zone [A] of [line_db] is centred on [a]. *)
Lemma proximity_is_zone_query_without_target_witness :
  proximity_check line_db "a" (Zone.radius zone_A)
  = (res <- find_entities_in_zone line_db "A" ;;
     Ok (filter (fun h => negb (Z.eqb (SpatialEntity.id (fst h))
                                      (SpatialEntity.id (ent 1 "a" 0)))) res)).
Proof.
  apply (proximity_is_zone_query_without_target line_db "A" "a" zone_A
           (ent 1 "a" 0)).
  - vm_compute. reflexivity.
  - vm_compute. reflexivity.
  - vm_compute. reflexivity.
  - vm_compute. repeat constructor; cbn; intuition discriminate.
Defined.

End Cases19.

(** ** Neighbours of each other *)

(** X8. Being within a threshold is mutual: when [proximity_check] returns
    for two stored entities under the same threshold, the second is listed
    for the first at distance [d] exactly when the first is listed for the
    second at distance [d]. *)
Theorem proximity_is_mutual {L : Float.Libm} (db : DB) (name_a name_b : string)
    (threshold : float) (a b : SpatialEntity.t) (res_a res_b : list hit)
    (Ha : Sqlite.entity_by_name db name_a = Ok (Some a))
    (Hb : Sqlite.entity_by_name db name_b = Ok (Some b))
    (Hres_a : proximity_check db name_a threshold = Ok res_a)
    (Hres_b : proximity_check db name_b threshold = Ok res_b) :
  forall d, In (b, d) res_a <-> In (a, d) res_b.
Proof.
  unfold proximity_check in Hres_a, Hres_b.
  rewrite Ha in Hres_a. rewrite Hb in Hres_b. cbn [bind] in Hres_a, Hres_b.
  rewrite proximity_scan_is_scan in Hres_a.
  rewrite proximity_scan_is_scan in Hres_b.
  destruct (scan (near_probe a threshold) _ _) as [hits_a|] eqn:Hsa;
    cbn in Hres_a; [|discriminate].
  destruct (scan (near_probe b threshold) _ _) as [hits_b|] eqn:Hsb;
    cbn in Hres_b; [|discriminate].
  inversion Hres_a; subst res_a. inversion Hres_b; subst res_b.
  destruct (sorted_scan_spec _ _ _ (near_probe_not_nan a threshold) Hsa)
    as (_ & Hin_a & _).
  destruct (sorted_scan_spec _ _ _ (near_probe_not_nan b threshold) Hsb)
    as (_ & Hin_b & _).
  assert (Hain : In a (list_entities db))
    by exact (proj1 (entity_by_name_in _ _ _ Ha)).
  assert (Hbin : In b (list_entities db))
    by exact (proj1 (entity_by_name_in _ _ _ Hb)).
  intros d. rewrite Hin_a, Hin_b, !near_probe_some.
  rewrite (distance_to_swap (SpatialEntity.position b)).
  intuition congruence.
Qed.

Section Cases20.

#[local] Existing Instance rounded_libm.

Lemma proximity_is_mutual_witness :
  In (ent 2 "b" 1, flt 1) [(ent 4 "twin" 0, flt 0); (ent 2 "b" 1, flt 1)]
  <-> In (ent 1 "a" 0, flt 1)
        [(ent 1 "a" 0, flt 1); (ent 3 "c" 2, flt 1); (ent 4 "twin" 0, flt 1)].
Proof.
  apply (proximity_is_mutual line_db "a" "b" one_and_a_half);
    vm_compute; reflexivity.
Defined.

End Cases20.

(** ** What a successful call writes *)

Lemma scan_app (f : probe) (l1 l2 : list SpatialEntity.t) (results : list hit) :
  scan f (l1 ++ l2) results = (r <- scan f l1 results ;; scan f l2 r).
Proof.
  revert results. induction l1 as [|e l1 IH]; intros results; [reflexivity|].
  cbn. destruct (f e) as [[d|]|]; cbn; auto.
Qed.

Lemma sorted_snoc {A : Type} (key : A -> float) (l : list A) (a : A) :
  sorted key (l ++ [a]) = insort key a (sorted key l).
Proof. unfold sorted. now rewrite fold_left_app. Qed.

(** Where the insertion puts the pivot. *)
Lemma insort_split {A : Type} (key : A -> float) (pivot : A) (run : list A) :
  key_ok key pivot -> Forall (key_ok key) run ->
  StronglySorted (key_le key) run ->
  exists before after,
    run = before ++ after
    /\ insort key pivot run = before ++ pivot :: after
    /\ Forall (fun a => Float.leb (key a) (key pivot) = true) before
    /\ Forall (fun a => Float.ltb (key pivot) (key a) = true) after.
Proof.
  intros Hp Hok Hs. induction Hs as [|p run Hs IH Hall].
  - exists [], []. repeat split; constructor.
  - inversion Hok as [|? ? Hokp Hokr]; subst. cbn [insort].
    destruct (Float.ltb (key pivot) (key p)) eqn:Hlt.
    + exists [], (p :: run). repeat split; [constructor|].
      constructor; [exact Hlt|].
      eapply Forall_impl; [|exact Hall]. intros a Ha.
      exact (FloatOrder.ltb_leb_trans _ _ _ Hlt Ha).
    + destruct (IH Hokr) as (before & after & Hrun & Hins & Hb & Ha).
      exists (p :: before), after. rewrite Hins, Hrun. repeat split; auto.
      constructor; [|exact Hb].
      apply FloatOrder.ltb_false_leb; assumption.
Qed.

(** ** Registering an entity and the zones *)

(** A REAL column gives back a float at the same distance from every
    point. *)
Lemma sub_real_abs (v w : float) :
  SFabs (Float.sub (Sqlite.real v) w) = SFabs (Float.sub v w).
Proof.
  destruct v as [[]|s| |s m e]; try reflexivity.
  destruct w as [[]|[]| |[] m e]; reflexivity.
Qed.

Lemma sub_abs_real (v w : float) :
  SFabs (Float.sub v (Sqlite.real w)) = SFabs (Float.sub v w).
Proof.
  destruct w as [[]|s| |s m e]; try reflexivity.
  destruct v as [[]|[]| |[] m e]; reflexivity.
Qed.

Lemma distance_to_entity_row {L : Float.Libm} (e : SpatialEntity.t)
    (p : Point3D) :
  distance_to (SpatialEntity.position (Sqlite.entity_row e)) p
  = distance_to (SpatialEntity.position e) p.
Proof.
  unfold distance_to. cbn [SpatialEntity.position Sqlite.entity_row px py pz
    SpatialEntity.x SpatialEntity.y SpatialEntity.z].
  rewrite (pow2_abs _ _ (sub_real_abs (SpatialEntity.x e) (px p))).
  rewrite (pow2_abs _ _ (sub_real_abs (SpatialEntity.y e) (py p))).
  rewrite (pow2_abs _ _ (sub_real_abs (SpatialEntity.z e) (pz p))).
  reflexivity.
Qed.

Section AddEntityAndZones.

Variable dict : Type.
Variable empty_dict : dict.
Variable truthy : dict -> bool.
Variable json_dumps : dict -> result string.

(** X9. After [add_entity] has registered [e], a zone query that returned
    [res] before returns [res] again when [e] is outside the zone, and
    otherwise [res] with the entry of [e], as the row that stands for it,
    put behind the entries at most as far as [e] and before the entries
    farther away; it raises when the distance of [e] to the centre cannot
    be computed. *)
Theorem registering_entity_extends_zone_results {L : Float.Libm} (db db' : DB)
    (now name : string) (x y z : float) (entity_type : option string)
    (metadata : option dict) (e : SpatialEntity.t)
    (zone_name : string) (zone : Zone.t) (res : list hit)
    (Hadd : add_entity dict empty_dict truthy json_dumps
              db now name x y z entity_type metadata = (Ok e, db'))
    (Hzone : Sqlite.zone_by_name db zone_name = Ok (Some zone))
    (Hres : find_entities_in_zone db zone_name = Ok res) :
  match distance_to (SpatialEntity.position e) (Zone.center zone) with
  | Raise err => find_entities_in_zone db' zone_name = Raise err
  | Ok d =>
      if Float.leb d (Zone.radius zone)
      then exists before after,
             res = before ++ after
             /\ find_entities_in_zone db' zone_name
                = Ok (before ++ (Sqlite.entity_row e, d) :: after)
             /\ Forall (fun h => Float.leb (snd h) d = true) before
             /\ Forall (fun h => Float.ltb d (snd h) = true) after
      else find_entities_in_zone db' zone_name = Ok res
  end.
Proof.
  apply add_entity_ok in Hadd. destruct Hadd as (_ & _ & _ & _ & ->).
  unfold find_entities_in_zone in *.
  change (Sqlite.zone_by_name
            (mkDB (zones db) (entities db ++ [Sqlite.entity_row e])
               (zones_seq db) (SpatialEntity.id e)) zone_name)
    with (Sqlite.zone_by_name db zone_name).
  rewrite Hzone in *. cbn [bind] in *. rewrite zone_scan_is_scan in *.
  unfold list_entities in *. cbn [entities]. rewrite scan_app.
  destruct (scan (zone_probe zone) (entities db) []) as [hits|] eqn:Hscan;
    cbn [bind] in *; [|discriminate].
  inversion Hres; subst res. clear Hres.
  cbn [scan]. unfold zone_probe. rewrite distance_to_entity_row.
  destruct (distance_to _ _) as [d|err]; cbn [bind]; [|reflexivity].
  destruct (Float.leb d (Zone.radius zone)) eqn:Hle; cbn [bind];
    [|reflexivity].
  assert (Hok : Forall (key_ok snd) hits).
  { apply scan_ok in Hscan. cbn in Hscan. subst hits.
    apply hits_of_key_ok, zone_probe_not_nan. }
  destruct (sorted_spec snd hits Hok) as (Hsorted & Hperm & _).
  destruct (insort_split snd (Sqlite.entity_row e, d) (sorted snd hits))
    as (before & after & H).
  - exact (proj1 (FloatOrder.leb_not_nan _ _ Hle)).
  - eapply Permutation_Forall; [symmetry; exact Hperm | exact Hok].
  - exact Hsorted.
  - exists before, after. destruct H as (H1 & H2 & H3 & H4).
    split; [exact H1|]. split; [|auto].
    f_equal. etransitivity; [apply sorted_snoc | exact H2].
Qed.

End AddEntityAndZones.

Section Cases21.

#[local] Existing Instance rounded_libm.

(** Registering [mid] at [x = 1] in [line_db] puts it behind [b], which is
    as far from the centre of zone [A] and was registered before. *)
Lemma registering_entity_extends_zone_results_witness :
  exists before after,
    [(ent 1 "a" 0, flt 0); (ent 4 "twin" 0, flt 0); (ent 2 "b" 1, flt 1);
     (ent 3 "c" 2, flt 2)] = before ++ after
    /\ find_entities_in_zone
         (snd (cli_add_entity line_db t0 "mid" (flt 1) (flt 0) (flt 0))) "A"
       = Ok (before ++ (ent 5 "mid" 1, flt 1) :: after)
    /\ Forall (fun h => Float.leb (snd h) (flt 1) = true) before
    /\ Forall (fun h => Float.ltb (flt 1) (snd h) = true) after.
Proof.
  exact (registering_entity_extends_zone_results unit tt (fun _ => false)
           (fun _ => Ok "{}") line_db
           (snd (cli_add_entity line_db t0 "mid" (flt 1) (flt 0) (flt 0)))
           t0 "mid" (flt 1) (flt 0) (flt 0) None None (ent 5 "mid" 1)
           "A" zone_A
           [(ent 1 "a" 0, flt 0); (ent 4 "twin" 0, flt 0); (ent 2 "b" 1, flt 1);
            (ent 3 "c" 2, flt 2)]
           ltac:(vm_compute; reflexivity) ltac:(vm_compute; reflexivity)
           ltac:(vm_compute; reflexivity)).
Defined.

End Cases21.

(** ** Databases the code builds *)

Lemma max_rowid_snoc (ids : list Z) (i : Z) :
  Sqlite.max_rowid (ids ++ [i]) = Z.max (Sqlite.max_rowid ids) i.
Proof.
  induction ids as [|j ids IH].
  - cbn [app]. change (Sqlite.max_rowid [i]) with (Z.max i 0).
    change (Sqlite.max_rowid []) with 0. lia.
  - change (Sqlite.max_rowid ((j :: ids) ++ [i]))
      with (Z.max j (Sqlite.max_rowid (ids ++ [i]))).
    change (Sqlite.max_rowid (j :: ids)) with (Z.max j (Sqlite.max_rowid ids)).
    rewrite IH. lia.
Qed.

Lemma rowids_S (n : nat) : rowids (S n) = rowids n ++ [Z.of_nat (S n)].
Proof. unfold rowids. rewrite seq_S, map_app. reflexivity. Qed.

Lemma max_rowid_rowids (n : nat) : Sqlite.max_rowid (rowids n) = Z.of_nat n.
Proof.
  induction n as [|n IH]; [reflexivity|].
  rewrite rowids_S, max_rowid_snoc, IH. lia.
Qed.

Lemma next_rowid_rowids (n : nat) :
  Sqlite.next_rowid (Z.of_nat n) (rowids n) = Z.of_nat (S n).
Proof. unfold Sqlite.next_rowid. rewrite max_rowid_rowids. lia. Qed.

Lemma real_real (v : float) : Sqlite.real (Sqlite.real v) = Sqlite.real v.
Proof. destruct v as [[]|s| |s m e]; reflexivity. Qed.

Lemma real_is_nan (v : float) : Float.is_nan (Sqlite.real v) = Float.is_nan v.
Proof. destruct v as [[]|s| |s m e]; reflexivity. Qed.

Lemma zone_row_zone_row (r : Zone.t) :
  Sqlite.zone_row (Sqlite.zone_row r) = Sqlite.zone_row r.
Proof. unfold Sqlite.zone_row. cbn. now rewrite !real_real. Qed.

Lemma entity_row_entity_row (r : SpatialEntity.t) :
  Sqlite.entity_row (Sqlite.entity_row r) = Sqlite.entity_row r.
Proof. unfold Sqlite.entity_row. cbn. now rewrite !real_real. Qed.

Lemma texts_bind_default (name : string) (type : option string)
    (default : string) :
  Sqlite.encodable default = true ->
  Sqlite.encodable name
  && match type with Some t => Sqlite.encodable t | None => true end = true ->
  Sqlite.encodable name = true
  /\ Sqlite.encodable match type with Some t => t | None => default end = true.
Proof.
  intros Hdefault H. apply andb_prop in H. destruct H as [Hname Htype].
  split; [exact Hname|]. destruct type; assumption.
Qed.

(** The row [add_zone] appends. *)
Lemma add_zone_row_ok (db db' : DB) (now name : string)
    (cx cy cz radius : float) (zone_type : option string) (zone : Zone.t) :
  add_zone db now name cx cy cz radius zone_type = (Ok zone, db') ->
  zone_row_ok (Sqlite.zone_row zone).
Proof.
  intros Hadd. apply add_zone_ok in Hadd.
  destruct Hadd as (Hbind & _ & Hreal & -> & _).
  destruct (texts_bind_default name zone_type "generic"
              default_zone_type_binds Hbind) as [Hname Htype].
  unfold zone_row_ok. rewrite zone_row_zone_row. cbn. rewrite !real_is_nan.
  destruct (Float.is_nan cx); [discriminate|].
  destruct (Float.is_nan cy); [discriminate|].
  destruct (Float.is_nan cz); [discriminate|].
  destruct (Float.is_nan radius); [discriminate|]. auto 10.
Qed.

Lemma well_formed_add_zone (db : DB) (now name : string)
    (cx cy cz radius : float) (zone_type : option string) :
  well_formed db ->
  well_formed (snd (add_zone db now name cx cy cz radius zone_type)).
Proof.
  intros Hwf.
  pose proof (add_zone_keeps_names_distinct db now name cx cy cz radius
                zone_type (proj1 (proj2 (proj2 (proj2 (proj2 Hwf)))))) as Hnames.
  destruct (add_zone db now name cx cy cz radius zone_type) as [[zone|x] db']
    eqn:Hadd.
  - cbn [snd] in *.
    destruct Hwf as (Hids & Hseq & Heids & Heseq & Hnd & Hz & He).
    pose proof (add_zone_row_ok _ _ _ _ _ _ _ _ _ _ Hadd) as Hrow.
    apply add_zone_ok in Hadd. destruct Hadd as (_ & _ & _ & Hzone & ->).
    rewrite Hids, Hseq, next_rowid_rowids in Hzone.
    cbn [zones] in Hnames.
    unfold well_formed. cbn [zones entities zones_seq entities_seq].
    rewrite !length_app, !map_app, Hids. cbn [List.length map].
    rewrite Nat.add_1_r, rowids_S.
    assert (Hid : Zone.id zone = Z.of_nat (S (List.length (zones db))))
      by (subst zone; reflexivity).
    change (Zone.id (Sqlite.zone_row zone)) with (Zone.id zone).
    rewrite Hid.
    split; [reflexivity|]. split; [reflexivity|]. split; [exact Heids|].
    split; [exact Heseq|]. split; [rewrite map_app in Hnames; exact Hnames|].
    split; [|exact He].
    apply Forall_app. split; [exact Hz|]. constructor; [exact Hrow|constructor].
  - pose proof (add_zone_raise db now name cx cy cz radius zone_type x) as H.
    rewrite Hadd in H. cbn [fst snd] in *. now rewrite H.
Qed.

Lemma well_formed_add_entity (dict : Type) (empty_dict : dict)
    (truthy : dict -> bool) (json_dumps : dict -> result string)
    (db : DB) (now name : string) (x y z : float)
    (entity_type : option string) (metadata : option dict) :
  well_formed db ->
  well_formed (snd (add_entity dict empty_dict truthy json_dumps
                      db now name x y z entity_type metadata)).
Proof.
  intros Hwf.
  destruct (add_entity dict empty_dict truthy json_dumps
              db now name x y z entity_type metadata) as [[e|err] db'] eqn:Hadd.
  - cbn [snd].
    destruct Hwf as (Hids & Hseq & Heids & Heseq & Hnd & Hz & He).
    apply add_entity_ok in Hadd.
    destruct Hadd as (Hbind & Hreal & _ & Hrow & ->).
    destruct (texts_bind_default name entity_type "object"
                default_entity_type_binds Hbind) as [Hname Htype].
    assert (Hid : SpatialEntity.id e
                  = Z.of_nat (S (List.length (entities db)))).
    { rewrite Hrow. cbn [SpatialEntity.id].
      rewrite Heids, Heseq. apply next_rowid_rowids. }
    unfold well_formed. cbn [zones entities zones_seq entities_seq].
    rewrite !length_app, !map_app, Heids. cbn [List.length map].
    change (SpatialEntity.id (Sqlite.entity_row e)) with (SpatialEntity.id e).
    rewrite Nat.add_1_r, rowids_S, Hid.
    split; [exact Hids|]. split; [exact Hseq|]. split; [reflexivity|].
    split; [reflexivity|]. split; [exact Hnd|]. split; [exact Hz|].
    apply Forall_app. split; [exact He|]. constructor; [|constructor].
    unfold entity_row_ok. rewrite entity_row_entity_row.
    rewrite Hrow. cbn. rewrite !real_is_nan.
    destruct (Float.is_nan x); [discriminate|].
    destruct (Float.is_nan y); [discriminate|].
    destruct (Float.is_nan z); [discriminate|]. auto 10.
  - pose proof (add_entity_raise dict empty_dict truthy json_dumps
                  db now name x y z entity_type metadata err) as H.
    rewrite Hadd in H. cbn [fst snd] in *. now rewrite H.
Qed.

Lemma reachable_well_formed (db : DB) : reachable db -> well_formed db.
Proof.
  induction 1 as [|db now name cx cy cz radius zone_type _ IH
                  |dict empty_dict truthy json_dumps db now name x y z
                     entity_type metadata _ IH].
  - unfold well_formed. cbn. repeat split; constructor.
  - apply well_formed_add_zone, IH.
  - apply well_formed_add_entity, IH.
Qed.

Section Cases22.

#[local] Existing Instance rounded_libm.

Lemma line_db_reachable : reachable line_db.
Proof.
  unfold line_db, cli_add_entity. repeat constructor.
Qed.

End Cases22.

(** X10. In a database the code has built from a new file, by whatever
    calls of [add_zone] and [add_entity], failed ones included: the zone
    ids are [1, 2, ..., n] in the order of creation and so are the entity
    ids, the counters of [sqlite_sequence] stand at the last ids, zone
    names are distinct, every zone is active, no stored coordinate or
    radius is NaN or [-0.0], and every stored name and type has a UTF-8
    encoding. *)
Theorem reachable_database_invariants (db : DB) (Hreach : reachable db) :
  map Zone.id (zones db) = rowids (List.length (zones db))
  /\ zones_seq db = Z.of_nat (List.length (zones db))
  /\ map SpatialEntity.id (entities db) = rowids (List.length (entities db))
  /\ entities_seq db = Z.of_nat (List.length (entities db))
  /\ NoDup (map Zone.name (zones db))
  /\ Forall zone_row_ok (zones db)
  /\ Forall entity_row_ok (entities db).
Proof. exact (reachable_well_formed db Hreach). Qed.

Section Cases23.

#[local] Existing Instance rounded_libm.

Lemma reachable_database_invariants_witness :
  map Zone.id (zones line_db) = rowids (List.length (zones line_db))
  /\ zones_seq line_db = Z.of_nat (List.length (zones line_db))
  /\ map SpatialEntity.id (entities line_db)
     = rowids (List.length (entities line_db))
  /\ entities_seq line_db = Z.of_nat (List.length (entities line_db))
  /\ NoDup (map Zone.name (zones line_db))
  /\ Forall zone_row_ok (zones line_db)
  /\ Forall entity_row_ok (entities line_db).
Proof.
  apply (reachable_database_invariants line_db).
  unfold line_db, cli_add_entity. repeat constructor.
Defined.

End Cases23.

(** ** status *)

Lemma find_app {A : Type} (p : A -> bool) (l1 l2 : list A) :
  find p (l1 ++ l2)
  = match find p l1 with Some a => Some a | None => find p l2 end.
Proof.
  induction l1 as [|a l1 IH]; [reflexivity|].
  cbn. destruct (p a); [reflexivity | exact IH].
Qed.

Lemma all_active_listed (rows : list Zone.t) :
  Forall zone_row_ok rows ->
  filter (fun r => Z.eqb (Zone.active r) 1) rows = rows.
Proof.
  induction 1 as [|r rows [Hr _] _ IH]; [reflexivity|].
  cbn. rewrite Hr, IH. reflexivity.
Qed.

Section StatusFacts.

Variable dict : Type.
Variable empty_dict : dict.
Variable truthy : dict -> bool.
Variable json_dumps : dict -> result string.

(** X11. [status] follows the writes: a successful [add_zone] raises
    [active_zones] by one and leaves [total_entities], a successful
    [add_entity] raises [total_entities] by one and leaves [active_zones],
    and in a database the code has built [active_zones] counts every zone
    that [export_data] lists. *)
Theorem status_counts_follow_writes (db : DB) (path : string) :
  (forall now name cx cy cz radius zone_type zone db',
      add_zone db now name cx cy cz radius zone_type = (Ok zone, db') ->
      active_zones (status db' path) = active_zones (status db path) + 1
      /\ total_entities (status db' path) = total_entities (status db path))
  /\ (forall now name x y z entity_type metadata e db',
        add_entity dict empty_dict truthy json_dumps
          db now name x y z entity_type metadata = (Ok e, db') ->
        total_entities (status db' path) = total_entities (status db path) + 1
        /\ active_zones (status db' path) = active_zones (status db path))
  /\ (reachable db ->
      forall now,
        get_list "zones" (export_data db now)
        = Some (map asdict_zone (zones db))
        /\ active_zones (status db path)
           = Z.of_nat (List.length (map asdict_zone (zones db)))).
Proof.
  split; [|split].
  - intros now name cx cy cz radius zone_type zone db' Hadd.
    apply add_zone_ok in Hadd. destruct Hadd as (_ & _ & _ & Hzone & ->).
    unfold status, list_zones, list_entities.
    cbn [zones entities active_zones total_entities].
    rewrite filter_app, length_app.
    assert (Hactive : Zone.active (Sqlite.zone_row zone) = 1)
      by (subst zone; reflexivity).
    cbn [filter]. rewrite Hactive. cbn [Z.eqb Pos.eqb List.length].
    split; [lia | reflexivity].
  - intros now name x y z entity_type metadata e db' Hadd.
    apply add_entity_ok in Hadd. destruct Hadd as (_ & _ & _ & _ & ->).
    unfold status, list_zones, list_entities.
    cbn [zones entities active_zones total_entities].
    rewrite length_app. cbn [List.length]. split; [lia | reflexivity].
  - intros Hreach now. split; [reflexivity|].
    destruct (reachable_well_formed db Hreach) as (_ & _ & _ & _ & _ & Hz & _).
    unfold status, list_zones. cbn [active_zones].
    rewrite (all_active_listed _ Hz), length_map. reflexivity.
Qed.

End StatusFacts.

Section Cases24.

#[local] Existing Instance rounded_libm.

Lemma status_counts_follow_writes_witness :
  active_zones (status (snd (add_zone line_db t0 "B" (flt 9) (flt 9) (flt 9)
                               (flt 1) None)) "spatial-computing.db")
  = active_zones (status line_db "spatial-computing.db") + 1
  /\ total_entities (status (snd (cli_add_entity line_db t0 "d" (flt 3) (flt 0)
                                    (flt 0))) "spatial-computing.db")
     = total_entities (status line_db "spatial-computing.db") + 1
  /\ active_zones (status line_db "spatial-computing.db")
     = Z.of_nat (List.length (map asdict_zone (zones line_db))).
Proof.
  destruct (status_counts_follow_writes unit tt (fun _ => false)
              (fun _ => Ok "{}") line_db "spatial-computing.db")
    as (Hzone & Hentity & Hall).
  split; [|split].
  - refine (proj1 (Hzone t0 "B" (flt 9) (flt 9) (flt 9) (flt 1) None _ _ _)).
    vm_compute. reflexivity.
  - refine (proj1 (Hentity t0 "d" (flt 3) (flt 0) (flt 0) None None _ _ _)).
    vm_compute. reflexivity.
  - refine (proj2 (Hall _ t0)).
    unfold line_db, cli_add_entity. repeat constructor.
Defined.

End Cases24.

(** ** A new zone and the queries *)

Lemma existsb_false_find {A : Type} (p : A -> bool) (l : list A) :
  existsb p l = false -> find p l = None.
Proof.
  induction l as [|a l IH]; cbn; [reflexivity|].
  destruct (p a); cbn; [discriminate | exact IH].
Qed.

(** X12. After a successful [add_zone] the new name resolves to the zone
    the call returned, as the row that stands for it, which is the last
    zone [list_zones] yields; every other zone name resolves as before and
    its query gives what it gave before, and so does every proximity
    check. *)
Theorem new_zone_is_found_and_disturbs_nothing {L : Float.Libm} (db db' : DB) (now name : string)
    (cx cy cz radius : float) (zone_type : option string) (zone : Zone.t)
    (Hadd : add_zone db now name cx cy cz radius zone_type = (Ok zone, db')) :
  Sqlite.zone_by_name db' name = Ok (Some (Sqlite.zone_row zone))
  /\ list_zones db' true = list_zones db true ++ [Sqlite.zone_row zone]
  /\ (forall other,
        other <> name ->
        Sqlite.zone_by_name db' other = Sqlite.zone_by_name db other
        /\ find_entities_in_zone db' other = find_entities_in_zone db other)
  /\ (forall entity_name threshold,
        proximity_check db' entity_name threshold
        = proximity_check db entity_name threshold).
Proof.
  apply add_zone_ok in Hadd. destruct Hadd as (Hbind & Hfresh & _ & Hzone & ->).
  assert (Hname : Zone.name (Sqlite.zone_row zone) = name)
    by (subst zone; reflexivity).
  assert (Hactive : Zone.active (Sqlite.zone_row zone) = 1)
    by (subst zone; reflexivity).
  assert (Hother : forall other, other <> name ->
            Sqlite.zone_by_name
              (mkDB (zones db ++ [Sqlite.zone_row zone]) (entities db)
                 (Zone.id zone) (entities_seq db)) other
            = Sqlite.zone_by_name db other).
  { intros other Hne. unfold Sqlite.zone_by_name. cbn [zones]. f_equal.
    rewrite find_app. destruct (find _ (zones db)); [reflexivity|].
    cbn [find]. rewrite Hname.
    now rewrite (proj2 (String.eqb_neq name other) (not_eq_sym Hne)). }
  split; [|split; [|split]].
  - apply zone_by_name_ok. split.
    + unfold zone_texts_bind in Hbind. now apply andb_prop in Hbind.
    + cbn [zones]. rewrite find_app, (existsb_false_find _ _ Hfresh).
      cbn [find]. now rewrite Hname, String.eqb_refl.
  - unfold list_zones. cbn [zones]. rewrite filter_app. cbn [filter].
    now rewrite Hactive.
  - intros other Hne. split; [exact (Hother other Hne)|].
    unfold find_entities_in_zone. rewrite (Hother other Hne). reflexivity.
  - reflexivity.
Qed.

Section Cases25.

#[local] Existing Instance rounded_libm.

Lemma new_zone_is_found_and_disturbs_nothing_witness :
  Sqlite.zone_by_name zone_B_db "B" = Ok (Some (Sqlite.zone_row zone_B))
  /\ list_zones zone_B_db true
     = list_zones line_db true ++ [Sqlite.zone_row zone_B]
  /\ (forall other,
        other <> "B" ->
        Sqlite.zone_by_name zone_B_db other = Sqlite.zone_by_name line_db other
        /\ find_entities_in_zone zone_B_db other
           = find_entities_in_zone line_db other)
  /\ (forall entity_name threshold,
        proximity_check zone_B_db entity_name threshold
        = proximity_check line_db entity_name threshold).
Proof.
  apply (new_zone_is_found_and_disturbs_nothing line_db zone_B_db t0 "B"
           (flt 9) (flt 9) (flt 9) (flt 1) None zone_B).
  vm_compute. reflexivity.
Defined.

End Cases25.

(** ** Entities that share a name *)

Section SharedNames.

Variable dict : Type.
Variable empty_dict : dict.
Variable truthy : dict -> bool.
Variable json_dumps : dict -> result string.

(** X13. A name keeps resolving to the entity registered first under it:
    after a successful [add_entity], every name that resolved before
    resolves to the same entity, and the new entity, as the row that stands
    for it, is the target of [proximity_check] for its name only when no
    stored entity had the name.  Zone queries resolve their zones as
    before. *)
Theorem first_registered_entity_keeps_the_name (db db' : DB)
    (now name : string) (x y z : float) (entity_type : option string)
    (metadata : option dict) (e : SpatialEntity.t)
    (Hadd : add_entity dict empty_dict truthy json_dumps
              db now name x y z entity_type metadata = (Ok e, db')) :
  (forall entity_name,
      Sqlite.entity_by_name db' entity_name
      = (row <- Sqlite.entity_by_name db entity_name ;;
         Ok match row with
            | Some first => Some first
            | None =>
                if String.eqb name entity_name
                then Some (Sqlite.entity_row e) else None
            end))
  /\ (forall zone_name,
        Sqlite.zone_by_name db' zone_name = Sqlite.zone_by_name db zone_name).
Proof.
  apply add_entity_ok in Hadd.
  destruct Hadd as (_ & _ & _ & He & ->).
  assert (Hname : SpatialEntity.name (Sqlite.entity_row e) = name)
    by (rewrite He; reflexivity).
  split; [|reflexivity].
  intros entity_name. unfold Sqlite.entity_by_name, Sqlite.bind_text.
  destruct (Sqlite.encodable entity_name); cbn [bind]; [|reflexivity].
  f_equal. cbn [entities].
  rewrite find_app. destruct (find _ (entities db)); [reflexivity|].
  cbn [find]. rewrite Hname.
  destruct (String.eqb name entity_name); reflexivity.
Qed.

End SharedNames.

Section Cases26.

#[local] Existing Instance rounded_libm.

(** A second [a] registered in [line_db] does not become the target of the
    name [a]; the first one stays. *)
Lemma first_registered_entity_keeps_the_name_witness :
  Sqlite.entity_by_name second_a_db "a" = Ok (Some (ent 1 "a" 0))
  /\ Sqlite.zone_by_name second_a_db "A" = Sqlite.zone_by_name line_db "A".
Proof.
  destruct (first_registered_entity_keeps_the_name unit tt (fun _ => false)
              (fun _ => Ok "{}") line_db second_a_db
              t0 "a" (flt 7) (flt 8) (flt 9) None None
              (SpatialEntity.mk 5 "a" (flt 7) (flt 8) (flt 9) "object" "{}" t0))
    as [Hentity Hzone]; [vm_compute; reflexivity|].
  split; [|apply Hzone].
  rewrite Hentity. vm_compute. reflexivity.
Defined.

End Cases26.

(** ** Listed zones and their names *)

(** X14. In a database the code has built, [list_zones] shows every stored
    zone, and a zone is shown exactly when its name resolves to it: the
    query for the name of a listed zone concerns that very zone. *)
Theorem listed_zones_resolve_by_name (db : DB) (Hreach : reachable db) :
  list_zones db true = list_zones db false
  /\ forall zone,
       In zone (list_zones db true)
       <-> Sqlite.zone_by_name db (Zone.name zone) = Ok (Some zone).
Proof.
  destruct (reachable_well_formed db Hreach) as (_ & _ & _ & _ & Hnd & Hz & _).
  assert (Hall : list_zones db true = zones db)
    by (unfold list_zones; apply all_active_listed, Hz).
  split; [exact Hall|].
  intros zone. rewrite Hall. split.
  - intros Hin. apply zone_by_name_unique; [exact Hnd | exact Hin|].
    rewrite Forall_forall in Hz.
    destruct (Hz zone Hin) as (_ & _ & _ & _ & _ & Hname & _).
    exact Hname.
  - intros H. exact (proj1 (zone_by_name_in _ _ _ H)).
Qed.

Section Cases27.

#[local] Existing Instance rounded_libm.

Lemma listed_zones_resolve_by_name_witness :
  list_zones line_db true = list_zones line_db false
  /\ forall zone,
       In zone (list_zones line_db true)
       <-> Sqlite.zone_by_name line_db (Zone.name zone) = Ok (Some zone).
Proof.
  apply (listed_zones_resolve_by_name line_db).
  unfold line_db, cli_add_entity. repeat constructor.
Defined.

End Cases27.

(** ** Concentric zones *)

(** X15. Of two stored zones with the same centre, the one with the smaller
    radius holds a part of what the other holds: its query raises when the
    other raises and otherwise returns the entries of the other whose
    distance is at most the smaller radius, in the same order. *)
Theorem concentric_zones_nest {L : Float.Libm} (db : DB) (name_in name_out : string)
    (inner outer : Zone.t)
    (Hinner : Sqlite.zone_by_name db name_in = Ok (Some inner))
    (Houter : Sqlite.zone_by_name db name_out = Ok (Some outer))
    (Hcentre : Zone.center inner = Zone.center outer)
    (Hle : Float.leb (Zone.radius inner) (Zone.radius outer) = true) :
  find_entities_in_zone db name_in
  = (res <- find_entities_in_zone db name_out ;;
     Ok (filter (fun h => Float.leb (snd h) (Zone.radius inner)) res)).
Proof.
  unfold find_entities_in_zone. rewrite Hinner, Houter. cbn [bind].
  rewrite !zone_scan_is_scan, !scan_first_raise.
  assert (Hraise : first_raise (zone_probe inner) (list_entities db)
                   = first_raise (zone_probe outer) (list_entities db)).
  { apply first_raise_ext. intros e _. unfold zone_probe. rewrite Hcentre.
    destruct (distance_to _ _) as [d|x]; cbn; [exact I | reflexivity]. }
  rewrite Hraise. clear Hraise.
  destruct (first_raise _ _); [reflexivity|]. cbn [bind app]. f_equal.
  rewrite (sorted_filter snd) by (apply hits_of_key_ok, zone_probe_not_nan).
  f_equal. apply hits_of_filter. intros e. unfold zone_probe. rewrite Hcentre.
  destruct (distance_to _ _) as [d|x]; cbn; [|reflexivity].
  destruct (Float.leb d (Zone.radius inner)) eqn:H1.
  - rewrite (FloatOrder.leb_trans _ _ _ H1 Hle). cbn. now rewrite H1.
  - destruct (Float.leb d (Zone.radius outer)); [cbn; now rewrite H1 | reflexivity].
Qed.

Section Cases28.

#[local] Existing Instance rounded_libm.

(** The zone [core] of radius 1 inside zone [A]. *)
Lemma concentric_zones_nest_witness :
  find_entities_in_zone core_db "core"
  = (res <- find_entities_in_zone core_db "A" ;;
     Ok (filter (fun h => Float.leb (snd h) (flt 1)) res)).
Proof.
  apply (concentric_zones_nest core_db "core" "A"
           (Zone.mk 2 "core" (flt 0) (flt 0) (flt 0) (flt 1) "generic" t0 1)
           zone_A);
    vm_compute; reflexivity.
Defined.

End Cases28.
